(** * joke-generator: the request handler and its two remote providers

    A shallow embedding of [application/main.go] and [httpserver/main.go].
    Both programs serve one route with [getRoot], which asks a name
    service for a random name, asks a joke service for a joke about that
    name and writes the joke to the response.

    - Go's (value, error) results of library calls are [result]; a Go
      [error] that may be nil is [option error].
    - A provider runs in the monad [M]: it prints to the standard output
      of the process and may end the process ([os.Exit]).
    - The handler is a program [Prog] over the calls it makes through the
      process-wide names [getRandomName] and [getRandomJoke]; [exec]
      runs it against the functions bound to them and records the calls
      that were made.
    - Each "go func() { defer wg.Done(); ... }(); wg.Wait()" of [getRoot]
      starts one goroutine and waits for it before anything else happens,
      so it is embedded as the call it makes.
    - The response writer is the record of what was written to it, as
      an httptest.ResponseRecorder keeps it.
    - The calls that leave the process (url.Parse, http.NewRequest,
      client.Do, reading the body) answer as a [World] says; what
      encoding/json does with the body is computed: a scanner for JSON
      texts and the decoding into the two structs of the program. *)

From Stdlib Require Import String Ascii List ZArith NArith Bool.
From ExtLib Require Import Structures.Monad.
Import ListNotations.
Import MonadNotation.
Local Open Scope string_scope.
Local Open Scope monad_scope.

(** ** Errors and formatted output *)

(** The dynamic types of the [error] values that occur: library errors
    that carry a text, the two errors of encoding/json, and the errors
    built by [fmt.Errorf] from a format and its one argument. *)
Inductive error : Type :=
| errorString (text : string)
| SyntaxError
| UnmarshalTypeError (Value Field : string)
| wrapError (format : string) (a : arg)
with arg : Type :=
| ArgError (err : error)
| ArgString (s : string)
| ArgInt (n : Z).

(** A library call that returns (value, error): the value when the error
    is nil, else the error. *)
Inductive result (A : Type) : Type :=
| Ok (a : A)
| Err (err : error).
Arguments Ok {A} a.
Arguments Err {A} err.

(** One call of fmt.Printf or fmt.Println, kept as its arguments. *)
Inductive output : Type :=
| Printf (format : string) (args : list arg)
| Println (args : list arg).

(** ** The process: standard output and termination *)

Record Proc : Type := { stdout : list output }.

Inductive Outcome (A : Type) : Type :=
| Val (a : A)
| Exit (code : Z).
Arguments Val {A} a.
Arguments Exit {A} code.

Definition M (A : Type) : Type := Proc -> Outcome A * Proc.

Definition M_ret {A} (a : A) : M A := fun s => (Val a, s).

Definition M_bind {A B} (m : M A) (f : A -> M B) : M B :=
  fun s =>
    match m s with
    | (Val a, s') => f a s'
    | (Exit code, s') => (Exit code, s')
    end.

#[export] Instance Monad_M : Monad M :=
  {| ret := @M_ret; bind := @M_bind |}.

Module fmt.
Definition Errorf (format : string) (a : arg) : error := wrapError format a.

Definition Printf (format : string) (args : list arg) : M unit :=
  fun s => (Val tt, {| stdout := stdout s ++ [Printf format args] |}).

Definition Println (args : list arg) : M unit :=
  fun s => (Val tt, {| stdout := stdout s ++ [Println args] |}).
End fmt.

Module os.
Definition Exit {A} (code : Z) : M A := fun s => (Exit code, s).
End os.

(** ** net/http: requests, responses and the response writer *)

Module http.
Definition StatusOK : Z := 200.
Definition StatusInternalServerError : Z := 500.
Definition MethodGet : string := "GET".

Definition Header : Type := list (string * string).

Definition Header_Del (key : string) (h : Header) : Header :=
  filter (fun kv => negb (String.eqb (fst kv) key)) h.

Definition Header_Set (key value : string) (h : Header) : Header :=
  (key, value) :: Header_Del key h.

(** A request, inbound or outbound. *)
Record Request : Type :=
  { Method : string;
    URL : string;
    ReqHeader : Header;
    ReqBody : string }.

(** A response of a remote service: its status code and what
    io.ReadAll gets from its body. *)
Record Response : Type :=
  { StatusCode : Z;
    Body : result string }.

(** The state of a response writer: the status code, whether the
    header has been written, the header map, the body written so far,
    and the error with which Write fails, if it does (a connection
    that is gone). As in net/http the first Write writes the header
    with status 200 before anything else, and a second WriteHeader is
    ignored. *)
Record ResponseWriter : Type :=
  { Code : Z;
    wroteHeader : bool;
    HeaderMap : Header;
    Written : string;
    writeErr : option error }.

Definition WriteHeader (code : Z) (w : ResponseWriter) : ResponseWriter :=
  if wroteHeader w then w
  else {| Code := code; wroteHeader := true; HeaderMap := HeaderMap w;
          Written := Written w; writeErr := writeErr w |}.

Definition Write (data : string) (w : ResponseWriter)
  : ResponseWriter * option error :=
  let w := if wroteHeader w then w else WriteHeader StatusOK w in
  match writeErr w with
  | Some err => (w, Some err)
  | None =>
      ({| Code := Code w; wroteHeader := wroteHeader w;
          HeaderMap := HeaderMap w; Written := Written w ++ data;
          writeErr := writeErr w |}, None)
  end.

Definition setHeader (h : Header) (w : ResponseWriter) : ResponseWriter :=
  {| Code := Code w; wroteHeader := wroteHeader w; HeaderMap := h;
     Written := Written w; writeErr := writeErr w |}.

(** http.Error: the plain-text headers, the status code, then the
    message printed with fmt.Fprintln, that is followed by a newline. *)
Definition Error (w : ResponseWriter) (error : string) (code : Z)
  : ResponseWriter :=
  let h := Header_Del "Content-Length" (HeaderMap w) in
  let h := Header_Set "Content-Type" "text/plain; charset=utf-8" h in
  let h := Header_Set "X-Content-Type-Options" "nosniff" h in
  let w := WriteHeader code (setHeader h w) in
  fst (Write (error ++ String "010"%char "") w).
End http.

Module io.
Definition ReadAll (body : result string) : result string := body.

Definition WriteString (w : http.ResponseWriter) (s : string)
  : http.ResponseWriter * option error :=
  http.Write s w.
End io.

Module httptest.
(** httptest.NewRecorder(): nothing written yet, code 200 until a
    header is written, writes never fail. *)
Definition NewRecorder : http.ResponseWriter :=
  {| http.Code := 200; http.wroteHeader := false; http.HeaderMap := [];
     http.Written := ""; http.writeErr := None |}.
End httptest.

(** A writer on which nothing has been written and whose writes succeed. *)
Definition fresh (w : http.ResponseWriter) : bool :=
  negb (http.wroteHeader w)
  && String.eqb (http.Written w) ""
  && match http.writeErr w with None => true | Some _ => false end.

(** ** The data of the two services *)

Record Names : Type :=
  { FirstName : string;   (* json:"first_name" *)
    LastName : string }.  (* json:"last_name" *)

(** [Joke] has one field, [Value], a struct with the one field [Joke]. *)
Record JokeValue : Type := { Joke_ : string }.  (* json:"joke" *)
Record Joke : Type := { Value : JokeValue }.    (* json:"value" *)

Definition Names_zero : Names := {| FirstName := ""; LastName := "" |}.
Definition Joke_zero : Joke := {| Value := {| Joke_ := "" |} |}.


(** ** encoding/json: validation and decoding into the two structs *)

Module json.

#[local] Unset Elimination Schemes.
Inductive value : Type :=
| JNull
| JBool (b : bool)
| JNumber (literal : string)
| JString (s : string)
| JArray (elems : list value)
| JObject (members : list (string * value)).
#[local] Set Elimination Schemes.

Definition byte (c : ascii) : N := N_of_ascii c.
Definition char (n : N) : ascii := ascii_of_N n.

Definition between (lo hi : N) (c : ascii) : bool :=
  ((lo <=? byte c) && (byte c <=? hi))%N.

Definition isSpace (c : ascii) : bool :=
  ((byte c =? 32) || (byte c =? 9) || (byte c =? 13) || (byte c =? 10))%N.

Definition isDigit (c : ascii) : bool := between 48 57 c.

Definition isHex (c : ascii) : bool :=
  between 48 57 c || between 97 102 c || between 65 70 c.

Definition hexVal (c : ascii) : N :=
  if between 48 57 c then byte c - 48
  else if between 97 102 c then byte c - 87
  else byte c - 55.

Definition quote : ascii := char 34.

Fixpoint skipSpace (s : string) : string :=
  match s with
  | String c rest => if isSpace c then skipSpace rest else s
  | EmptyString => s
  end.

(** *** Numbers: an optional minus sign, 0 or a digit 1-9 followed by
    digits, an optional fraction (a dot and digits) and an optional
    exponent (e or E, an optional sign, digits). *)

Fixpoint digits (s : string) : string * string :=
  match s with
  | String c rest =>
      if isDigit c then let (ds, r) := digits rest in (String c ds, r)
      else (EmptyString, s)
  | EmptyString => (EmptyString, s)
  end.

Definition scanInt (s : string) : option (string * string) :=
  match s with
  | String c rest =>
      if (byte c =? 48)%N then Some (String c EmptyString, rest)
      else if between 49 57 c
           then let (ds, r) := digits rest in Some (String c ds, r)
           else None
  | EmptyString => None
  end.

Definition scanFrac (s : string) : option (string * string) :=
  match s with
  | String c rest =>
      if (byte c =? 46)%N
      then match digits rest with
           | (EmptyString, _) => None
           | (ds, r) => Some (String c ds, r)
           end
      else Some (EmptyString, s)
  | EmptyString => Some (EmptyString, s)
  end.

Definition scanExp (s : string) : option (string * string) :=
  match s with
  | String c rest =>
      if ((byte c =? 101) || (byte c =? 69))%N
      then
        let (sign, rest') :=
          match rest with
          | String d r =>
              if ((byte d =? 43) || (byte d =? 45))%N
              then (String d EmptyString, r) else (EmptyString, rest)
          | EmptyString => (EmptyString, rest)
          end in
        match digits rest' with
        | (EmptyString, _) => None
        | (ds, r) => Some (String c (sign ++ ds), r)
        end
      else Some (EmptyString, s)
  | EmptyString => Some (EmptyString, s)
  end.

Definition scanNumber (s : string) : option (string * string) :=
  let (sign, s1) :=
    match s with
    | String c rest =>
        if (byte c =? 45)%N then (String c EmptyString, rest)
        else (EmptyString, s)
    | EmptyString => (EmptyString, s)
    end in
  match scanInt s1 with
  | None => None
  | Some (i, s2) =>
      match scanFrac s2 with
      | None => None
      | Some (f, s3) =>
          match scanExp s3 with
          | None => None
          | Some (e, s4) => Some (sign ++ i ++ f ++ e, s4)
          end
      end
  end.

(** *** Strings: the scanner's validation and unquote's decoding *)

(** utf8.EncodeRune for a rune that is no surrogate and at most
    U+10FFFF. *)
Definition encodeRune (r : N) : string :=
  (if r <? 128 then String (char r) EmptyString
   else if r <? 2048 then
     String (char (192 + r / 64)) (String (char (128 + r mod 64)) EmptyString)
   else if r <? 65536 then
     String (char (224 + r / 4096))
       (String (char (128 + (r / 64) mod 64))
          (String (char (128 + r mod 64)) EmptyString))
   else
     String (char (240 + r / 262144))
       (String (char (128 + (r / 4096) mod 64))
          (String (char (128 + (r / 64) mod 64))
             (String (char (128 + r mod 64)) EmptyString))))%N.

Definition replacementChar : N := 65533.

Definition u4 (a b c d : ascii) : option N :=
  if isHex a && isHex b && isHex c && isHex d
  then Some (hexVal a * 4096 + hexVal b * 256 + hexVal c * 16 + hexVal d)%N
  else None.

Definition isSurrogate (r : N) : bool := ((55296 <=? r) && (r <? 57344))%N.

(** utf16.DecodeRune *)
Definition decodeSurrogates (r1 r2 : N) : N :=
  (if (55296 <=? r1) && (r1 <? 56320) && (56320 <=? r2) && (r2 <? 57344)
   then (r1 - 55296) * 1024 + (r2 - 56320) + 65536
   else replacementChar)%N.

(** The number of continuation bytes after lead byte [c] and the range
    the first of them must lie in, as utf8.DecodeRune accepts them. *)
Definition utf8Lead (c : ascii) : option (nat * N * N) :=
  if between 194 223 c then Some (1%nat, 128, 191)%N
  else if (byte c =? 224)%N then Some (2%nat, 160, 191)%N
  else if between 225 236 c then Some (2%nat, 128, 191)%N
  else if (byte c =? 237)%N then Some (2%nat, 128, 159)%N
  else if between 238 239 c then Some (2%nat, 128, 191)%N
  else if (byte c =? 240)%N then Some (3%nat, 144, 191)%N
  else if between 241 243 c then Some (3%nat, 128, 191)%N
  else if (byte c =? 244)%N then Some (3%nat, 128, 143)%N
  else None.

Definition cont (c : ascii) : bool := between 128 191 c.

(** The text of a string literal after its opening quote: the decoded
    string and what follows the closing quote. Invalid UTF-8 and lone
    surrogate escapes become U+FFFD. *)
Fixpoint scanString (s : string) : option (string * string) :=
  let emit (pre : string) (r : option (string * string)) :=
    match r with
    | Some (t, rest) => Some (pre ++ t, rest)
    | None => None
    end in
  let one (c : ascii) := String c EmptyString in
  match s with
  | EmptyString => None
  | String c r =>
      if (byte c =? 34)%N then Some (EmptyString, r)
      else if (byte c =? 92)%N then
        match r with
        | EmptyString => None
        | String e r1 =>
            if ((byte e =? 34) || (byte e =? 92) || (byte e =? 47))%N
            then emit (one e) (scanString r1)
            else if (byte e =? 98)%N then emit (one (char 8)) (scanString r1)
            else if (byte e =? 102)%N then emit (one (char 12)) (scanString r1)
            else if (byte e =? 110)%N then emit (one (char 10)) (scanString r1)
            else if (byte e =? 114)%N then emit (one (char 13)) (scanString r1)
            else if (byte e =? 116)%N then emit (one (char 9)) (scanString r1)
            else if (byte e =? 117)%N then
              match r1 with
              | String h1 (String h2 (String h3 (String h4 r2))) =>
                  match u4 h1 h2 h3 h4 with
                  | None => None
                  | Some rr =>
                      if isSurrogate rr then
                        match r2 with
                        | String b (String u (String k1 (String k2
                            (String k3 (String k4 r3))))) =>
                            let rr1 :=
                              if ((byte b =? 92) && (byte u =? 117))%N
                              then u4 k1 k2 k3 k4 else None in
                            match rr1 with
                            | Some rr1 =>
                                let dec := decodeSurrogates rr rr1 in
                                if (dec =? replacementChar)%N
                                then emit (encodeRune replacementChar)
                                          (scanString r2)
                                else emit (encodeRune dec) (scanString r3)
                            | None =>
                                emit (encodeRune replacementChar)
                                     (scanString r2)
                            end
                        | _ => emit (encodeRune replacementChar) (scanString r2)
                        end
                      else emit (encodeRune rr) (scanString r2)
                  end
              | _ => None
              end
            else None
        end
      else if (byte c <? 32)%N then None
      else if (byte c <? 128)%N then emit (one c) (scanString r)
      else
        let bad := emit (encodeRune replacementChar) (scanString r) in
        match utf8Lead c with
        | None => bad
        | Some (n, lo, hi) =>
            match r with
            | String c1 r1 =>
                if between lo hi c1 then
                  match n with
                  | 1%nat => emit (String c (one c1)) (scanString r1)
                  | _ =>
                      match r1 with
                      | String c2 r2 =>
                          if cont c2 then
                            match n with
                            | 2%nat =>
                                emit (String c (String c1 (one c2)))
                                     (scanString r2)
                            | _ =>
                                match r2 with
                                | String c3 r3 =>
                                    if cont c3 then
                                      emit (String c (String c1
                                              (String c2 (one c3))))
                                           (scanString r3)
                                    else bad
                                | EmptyString => bad
                                end
                            end
                          else bad
                      | EmptyString => bad
                      end
                  end
                else bad
            | EmptyString => bad
            end
        end
  end.

(** *** Values *)

Definition maxNestingDepth : N := 10000.

Definition literal (lit : string) (v : value) (s : string)
  : option (value * string) :=
  if String.prefix lit s
  then Some (v, substring (String.length lit)
                  (String.length s - String.length lit) s)
  else None.

(** One value at the start of [s], after white space, and what follows
    it. [depth] counts the arrays and objects that are open; [fuel]
    bounds the calls, each of which follows a consumed byte. *)
Fixpoint scanValue (fuel : nat) (depth : N) (s : string) {struct fuel}
  : option (value * string) :=
  match fuel with
  | O => None
  | S fuel =>
      match skipSpace s with
      | EmptyString => None
      | String c rest =>
          if (byte c =? 123)%N then
            if (maxNestingDepth <? depth + 1)%N then None
            else
              match skipSpace rest with
              | String c' rest' =>
                  if (byte c' =? 125)%N then Some (JObject [], rest')
                  else scanMembers fuel (depth + 1)%N (String c' rest') []
              | EmptyString => None
              end
          else if (byte c =? 91)%N then
            if (maxNestingDepth <? depth + 1)%N then None
            else
              match skipSpace rest with
              | String c' rest' =>
                  if (byte c' =? 93)%N then Some (JArray [], rest')
                  else scanElements fuel (depth + 1)%N (String c' rest') []
              | EmptyString => None
              end
          else if (byte c =? 34)%N then
            match scanString rest with
            | Some (str, rest') => Some (JString str, rest')
            | None => None
            end
          else if ((byte c =? 45) || isDigit c)%N then
            match scanNumber (String c rest) with
            | Some (lit, rest') => Some (JNumber lit, rest')
            | None => None
            end
          else if (byte c =? 116)%N then literal "true" (JBool true) (String c rest)
          else if (byte c =? 102)%N then literal "false" (JBool false) (String c rest)
          else if (byte c =? 110)%N then literal "null" JNull (String c rest)
          else None
      end
  end

with scanMembers (fuel : nat) (depth : N) (s : string)
       (acc : list (string * value)) {struct fuel}
  : option (value * string) :=
  match fuel with
  | O => None
  | S fuel =>
      match skipSpace s with
      | String q rest =>
          if (byte q =? 34)%N then
            match scanString rest with
            | None => None
            | Some (key, rest1) =>
                match skipSpace rest1 with
                | String colon rest2 =>
                    if (byte colon =? 58)%N then
                      match scanValue fuel depth rest2 with
                      | None => None
                      | Some (v, rest3) =>
                          match skipSpace rest3 with
                          | String d rest4 =>
                              if (byte d =? 44)%N
                              then scanMembers fuel depth rest4 ((key, v) :: acc)
                              else if (byte d =? 125)%N
                              then Some (JObject (rev ((key, v) :: acc)), rest4)
                              else None
                          | EmptyString => None
                          end
                      end
                    else None
                | EmptyString => None
                end
            end
          else None
      | EmptyString => None
      end
  end

with scanElements (fuel : nat) (depth : N) (s : string) (acc : list value)
       {struct fuel}
  : option (value * string) :=
  match fuel with
  | O => None
  | S fuel =>
      match scanValue fuel depth s with
      | None => None
      | Some (v, rest) =>
          match skipSpace rest with
          | String d rest' =>
              if (byte d =? 44)%N
              then scanElements fuel depth rest' (v :: acc)
              else if (byte d =? 93)%N
              then Some (JArray (rev (v :: acc)), rest')
              else None
          | EmptyString => None
          end
      end
  end.

(** The value that [data] is the JSON text of, if it is one. *)
Definition parse (data : string) : option value :=
  match scanValue (2 + 2 * String.length data) 0 data with
  | Some (v, rest) =>
      match skipSpace rest with
      | EmptyString => Some v
      | String _ _ => None
      end
  | None => None
  end.

Definition Valid (data : string) : bool :=
  match parse data with Some _ => true | None => false end.

(** *** Decoding into a struct

    A key of an object selects the field whose name it equals or, when
    there is none, the first field whose name it equals under case
    folding. A JSON string sets a string field, null leaves it as it
    is, and any other value leaves it as it is and is recorded as an
    UnmarshalTypeError; decoding goes on, and the first error recorded
    is the one returned. A key that selects no field is skipped. *)

Definition upper (c : ascii) : ascii :=
  if between 97 122 c then char (byte c - 32) else c.

(** [key] and the ASCII [name] are equal under Unicode simple case
    folding: ASCII letters match without regard to case, and so do the
    two other letters that fold to ASCII ones, U+017F (long s, bytes
    C5 BF) with 's' and U+212A (Kelvin sign, bytes E2 84 AA) with 'k'. *)
Fixpoint equalFold (key name : string) : bool :=
  match name with
  | EmptyString => match key with EmptyString => true | _ => false end
  | String n name' =>
      match key with
      | EmptyString => false
      | String k key' =>
          if Ascii.eqb (upper k) (upper n) then equalFold key' name'
          else if (byte k =? 197)%N && (byte (upper n) =? 83)%N then
            match key' with
            | String k1 key'' =>
                (byte k1 =? 191)%N && equalFold key'' name'
            | EmptyString => false
            end
          else if (byte k =? 226)%N && (byte (upper n) =? 75)%N then
            match key' with
            | String k1 (String k2 key'') =>
                (byte k1 =? 132)%N && (byte k2 =? 170)%N
                && equalFold key'' name'
            | _ => false
            end
          else false
      end
  end.

Fixpoint index (p : string -> bool) (names : list string) : option nat :=
  match names with
  | [] => None
  | n :: rest =>
      if p n then Some O
      else match index p rest with Some i => Some (S i) | None => None end
  end.

(** The field of a struct with the JSON names [names] that [key]
    selects. *)
Definition field (names : list string) (key : string) : option nat :=
  match index (String.eqb key) names with
  | Some i => Some i
  | None => index (equalFold key) names
  end.

(** UnmarshalTypeError.Value for a value that does not fit; its Field is
    the path of the field decoded into. *)
Definition describe (v : value) : string :=
  match v with
  | JNull => "null"
  | JBool _ => "bool"
  | JNumber _ => "number"
  | JString _ => "string"
  | JArray _ => "array"
  | JObject _ => "object"
  end.

Definition saveError (saved err : option error) : option error :=
  match saved with
  | Some _ => saved
  | None => err
  end.

(** A decoder for a Go type: the value decoded into, the error saved so
    far, and both afterwards. *)
Definition decoder (T : Type) : Type :=
  value -> T -> option error -> T * option error.

Definition decodeString (path : string) : decoder string :=
  fun v cur saved =>
    match v with
    | JString s => (s, saved)
    | JNull => (cur, saved)
    | _ => (cur, saveError saved (Some (UnmarshalTypeError (describe v) path)))
    end.

(** A struct: [names] are its fields' JSON names, and [fieldDecoder i]
    decodes a value into field [i]. *)
Fixpoint decodeMembers {T} (names : list string)
    (fieldDecoder : nat -> decoder T)
    (members : list (string * value)) (cur : T) (saved : option error)
  : T * option error :=
  match members with
  | [] => (cur, saved)
  | (key, v) :: rest =>
      match field names key with
      | Some i =>
          let (cur', saved') := fieldDecoder i v cur saved in
          decodeMembers names fieldDecoder rest cur' saved'
      | None => decodeMembers names fieldDecoder rest cur saved
      end
  end.

Definition decodeStruct {T} (path : string) (names : list string)
    (fieldDecoder : nat -> decoder T) : decoder T :=
  fun v cur saved =>
    match v with
    | JObject members => decodeMembers names fieldDecoder members cur saved
    | JNull => (cur, saved)
    | _ => (cur, saveError saved (Some (UnmarshalTypeError (describe v) path)))
    end.

(** The Go types json.Unmarshal is used with. *)
Class Target (T : Type) : Type := { decode : decoder T }.

(** json.Unmarshal(data, &v): a SyntaxError when [data] is not valid,
    else [v] after decoding and the first error saved, if any. *)
Definition Unmarshal {T} `{Target T} (data : string) (v : T)
  : T * option error :=
  match parse data with
  | None => (v, Some SyntaxError)
  | Some j => decode j v None
  end.

End json.

Definition setFirstName (s : string) (n : Names) : Names :=
  {| FirstName := s; LastName := LastName n |}.

Definition setLastName (s : string) (n : Names) : Names :=
  {| FirstName := FirstName n; LastName := s |}.

Definition decodeNamesField (i : nat) : json.decoder Names :=
  fun v n saved =>
    match i with
    | O =>
        let (s, saved') := json.decodeString "first_name" v (FirstName n) saved in
        (setFirstName s n, saved')
    | _ =>
        let (s, saved') := json.decodeString "last_name" v (LastName n) saved in
        (setLastName s n, saved')
    end.

#[export] Instance Target_Names : json.Target Names :=
  {| json.decode :=
       json.decodeStruct "" ["first_name"; "last_name"] decodeNamesField |}.

Definition decodeJokeValueField (i : nat) : json.decoder JokeValue :=
  fun v jv saved =>
    let (s, saved') := json.decodeString "value.joke" v (Joke_ jv) saved in
    ({| Joke_ := s |}, saved').

Definition decodeJokeField (i : nat) : json.decoder Joke :=
  fun v j saved =>
    let (jv, saved') :=
      json.decodeStruct "value" ["joke"] decodeJokeValueField v (Value j) saved in
    ({| Value := jv |}, saved').

#[export] Instance Target_Joke : json.Target Joke :=
  {| json.decode := json.decodeStruct "" ["value"] decodeJokeField |}.

(** ** net/url: query strings *)

Module url.

(** A parsed URL: what precedes the query (scheme, host and path) and
    the query without its question mark. *)
Record URL : Type :=
  { Base : string;
    RawQuery : string }.

Definition setRawQuery (q : string) (u : URL) : URL :=
  {| Base := Base u; RawQuery := q |}.

Definition String_ (u : URL) : string :=
  match RawQuery u with
  | EmptyString => Base u
  | q => Base u ++ "?" ++ q
  end.

Definition unreserved (c : ascii) : bool :=
  json.between 48 57 c || json.between 65 90 c || json.between 97 122 c
  || (json.byte c =? 45)%N || (json.byte c =? 95)%N
  || (json.byte c =? 46)%N || (json.byte c =? 126)%N.

Definition upperhex (n : N) : ascii :=
  if (n <? 10)%N then json.char (48 + n) else json.char (55 + n).

Fixpoint QueryEscape (s : string) : string :=
  match s with
  | EmptyString => EmptyString
  | String c rest =>
      if unreserved c then String c (QueryEscape rest)
      else if (json.byte c =? 32)%N then String "+" (QueryEscape rest)
      else String "%" (String (upperhex (json.byte c / 16))
                         (String (upperhex (json.byte c mod 16))
                            (QueryEscape rest)))
  end.

(** url.Values: the values of each key, in the order they were added. *)
Definition Values : Type := list (string * list string).

Fixpoint Add (key value : string) (v : Values) : Values :=
  match v with
  | [] => [(key, [value])]
  | (k, vs) :: rest =>
      if String.eqb k key then (k, (vs ++ [value])%list) :: rest
      else (k, vs) :: Add key value rest
  end.

Fixpoint insertKey (kv : string * list string) (sorted : Values) : Values :=
  match sorted with
  | [] => [kv]
  | kv' :: rest =>
      if String.leb (fst kv) (fst kv') then kv :: sorted
      else kv' :: insertKey kv rest
  end.

Definition sortKeys (v : Values) : Values := fold_right insertKey [] v.

(** Values.Encode: "key=value" for every value of every key, keys in
    sorted order, joined by "&". *)
Definition Encode (v : Values) : string :=
  String.concat "&"
    (flat_map (fun kv => map (fun x => QueryEscape (fst kv) ++ "=" ++ QueryEscape x)
                             (snd kv))
              (sortKeys v)).

End url.

(** ** The world outside the process

    What the library calls that leave the process, or that depend on
    more than this embedding models, answer while one request is
    handled. *)
Record World : Type :=
  { url_Parse : string -> result url.URL;
    http_NewRequest : string -> string -> result http.Request;
    client_Do : http.Request -> result http.Response }.

Definition serverPort : Z := 3000.

(** Endpoint for getting a random first and last name *)
Definition randNameEndpoint : string := "https://names.mcquay.me/api/v0/".

(** Base endpoint for generating a random joke. *)
Definition randJokeBaseEndpoint : string :=
  "http://joke.loc8u.com:8888/joke?limitTo=nerdy".

(** ** The handler's calls

    [getRoot] calls [getRandomName] and [getRandomJoke] by name. In
    application/main.go these names are variables that hold functions,
    and a test binds other functions to them. A handler is therefore a
    program whose steps are these calls, and [Bound.t] gives the
    functions bound to the two names. *)

Module Bound.
Record t : Type :=
  { getRandomName : M (Names * option error);
    getRandomJoke : string -> string -> M (string * option error) }.
End Bound.

Inductive Prog (A : Type) : Type :=
| Ret (a : A)
| Call_getRandomName (k : Names * option error -> Prog A)
| Call_getRandomJoke (firstName lastName : string)
    (k : string * option error -> Prog A)
| Do_Println (args : list arg) (k : Prog A).
Arguments Ret {A} a.
Arguments Call_getRandomName {A} k.
Arguments Call_getRandomJoke {A} firstName lastName k.
Arguments Do_Println {A} args k.

Fixpoint Prog_bind {A B} (p : Prog A) (f : A -> Prog B) : Prog B :=
  match p with
  | Ret a => f a
  | Call_getRandomName k => Call_getRandomName (fun x => Prog_bind (k x) f)
  | Call_getRandomJoke fn ln k =>
      Call_getRandomJoke fn ln (fun x => Prog_bind (k x) f)
  | Do_Println args k => Do_Println args (Prog_bind k f)
  end.

#[export] Instance Monad_Prog : Monad Prog :=
  {| ret := @Ret; bind := @Prog_bind |}.

Definition call_getRandomName : Prog (Names * option error) :=
  Call_getRandomName Ret.

Definition call_getRandomJoke (firstName lastName : string)
  : Prog (string * option error) :=
  Call_getRandomJoke firstName lastName Ret.

Definition println (args : list arg) : Prog unit :=
  Do_Println args (Ret tt).

(** A call made while a program ran. *)
Inductive Call : Type :=
| CalledName
| CalledJoke (firstName lastName : string).

(** One run of a program: the calls made, in order, how it ended, and
    the process afterwards. *)
Record Run (A : Type) : Type :=
  { calls : list Call;
    outcome : Outcome A;
    final : Proc }.
Arguments calls {A} r.
Arguments outcome {A} r.
Arguments final {A} r.

Definition called {A} (c : Call) (r : Run A) : Run A :=
  {| calls := c :: calls r; outcome := outcome r; final := final r |}.

Fixpoint exec {A} (P : Bound.t) (p : Prog A) (s : Proc) : Run A :=
  match p with
  | Ret a => {| calls := []; outcome := Val a; final := s |}
  | Call_getRandomName k =>
      match Bound.getRandomName P s with
      | (Val x, s') => called CalledName (exec P (k x) s')
      | (Exit code, s') =>
          {| calls := [CalledName]; outcome := Exit code; final := s' |}
      end
  | Call_getRandomJoke fn ln k =>
      match Bound.getRandomJoke P fn ln s with
      | (Val x, s') => called (CalledJoke fn ln) (exec P (k x) s')
      | (Exit code, s') =>
          {| calls := [CalledJoke fn ln]; outcome := Exit code; final := s' |}
      end
  | Do_Println args k =>
      match fmt.Println args s with
      | (_, s') => exec P k s'
      end
  end.

(** The status code and the body a run of a handler left in its response
    writer, when the handler returned. *)
Definition response (r : Run http.ResponseWriter) : option (Z * string) :=
  match outcome r with
  | Val w => Some (http.Code w, http.Written w)
  | Exit _ => None
  end.

Definition Handler : Type :=
  http.ResponseWriter -> http.Request -> Prog http.ResponseWriter.

(** The requests that reach the handler, handled one after the other:
    each with a writer on which nothing was written yet and in the world
    of its time, until the list ends or the process does. The responses
    are those of the handlers that returned. This is what http.Server
    and http.ServeMux do with requests such as GET /, whose path is
    clean and which the pattern "/" hands to the handler, when they
    arrive in turn. What the mux answers by itself (a redirect for a
    path that is not clean, status 400 for the request target "*") and
    handlers running at the same time are not part of it. *)
Fixpoint serve (h : Handler) (funcs : World -> Bound.t)
    (reqs : list (World * http.Request)) (s : Proc)
  : list http.ResponseWriter * Outcome unit * Proc :=
  match reqs with
  | [] => ([], Val tt, s)
  | (W, r) :: rest =>
      let run := exec (funcs W) (h httptest.NewRecorder r) s in
      match outcome run with
      | Val w =>
          match serve h funcs rest (final run) with
          | (ws, o, s') => (w :: ws, o, s')
          end
      | Exit code => ([], Exit code, final run)
      end
  end.

(** ** application/main.go *)

Module Application.

Definition getRandomName (W : World) : M (Names * option error) :=
  match url_Parse W randNameEndpoint with
  | Err err =>
      ret (Names_zero,
           Some (fmt.Errorf "client could not parse url: %s" (ArgError err)))
  | Ok base =>
  match http_NewRequest W http.MethodGet (url.String_ base) with
  | Err err =>
      ret (Names_zero,
           Some (fmt.Errorf "client could not create request: %s" (ArgError err)))
  | Ok req =>
  match client_Do W req with
  | Err err =>
      ret (Names_zero,
           Some (fmt.Errorf "client: error making http request: %s" (ArgError err)))
  | Ok res =>
      fmt.Printf "client: got response!\n" [] ;;
      fmt.Printf "client: status code: %d\n" [ArgInt (http.StatusCode res)] ;;
      match io.ReadAll (http.Body res) with
      | Err err =>
          ret (Names_zero,
               Some (fmt.Errorf "client: could not read response body: %s"
                       (ArgError err)))
      | Ok resBody =>
          if json.Valid resBody then
            match json.Unmarshal resBody Names_zero with
            | (_, Some err) =>
                ret (Names_zero,
                     Some (fmt.Errorf "error unmarshalling JSON: %s" (ArgError err)))
            | (n, None) =>
                (* return n, err: the err of io.ReadAll, nil here *)
                ret (n, None)
            end
          else
            ret (Names_zero,
                 Some (fmt.Errorf "non-JSON response received: %s"
                         (ArgString resBody)))
      end
  end end end.

Definition getRandomJoke (W : World) (firstName lastName : string)
  : M (string * option error) :=
  match url_Parse W randJokeBaseEndpoint with
  | Err err =>
      ret ("", Some (fmt.Errorf "client could not parse url: %s" (ArgError err)))
  | Ok base =>
  let params : url.Values := [] in
  let params := url.Add "firstName" firstName params in
  let params := url.Add "lastName" lastName params in
  let base := url.setRawQuery (url.Encode params) base in
  match http_NewRequest W http.MethodGet (url.String_ base) with
  | Err err =>
      ret ("", Some (fmt.Errorf "client could not create request: %s"
                       (ArgError err)))
  | Ok req =>
  match client_Do W req with
  | Err err =>
      ret ("", Some (fmt.Errorf "client: error making http request: %s"
                       (ArgError err)))
  | Ok res =>
      fmt.Printf "client: got response!\n" [] ;;
      fmt.Printf "client: status code: %d\n" [ArgInt (http.StatusCode res)] ;;
      match io.ReadAll (http.Body res) with
      | Err err =>
          ret ("", Some (fmt.Errorf "client: could not read response body: %s"
                           (ArgError err)))
      | Ok resBody =>
          match json.Unmarshal resBody Joke_zero with
          | (_, Some err) =>
              ret ("", Some (fmt.Errorf "error unmarshalling JSON: %s"
                               (ArgError err)))
          | (j, None) => ret (Joke_ (Value j), None)
          end
      end
  end end end.

Definition returnCompleteJoke (joke : string) (w : http.ResponseWriter)
  : http.ResponseWriter :=
  match io.WriteString w joke with
  | (w, Some _) =>
      http.Error w "failed to write response" http.StatusInternalServerError
  | (w, None) => w
  end.

Definition getRoot (w : http.ResponseWriter) (r : http.Request)
  : Prog http.ResponseWriter :=
  '(name, err) <- call_getRandomName ;;
  let err :=
    match err with
    | Some err => Some (fmt.Errorf "failed to get name: %w" (ArgError err))
    | None => None
    end in
  match err with
  | Some _ =>
      ret (http.Error w "failed to get name" http.StatusInternalServerError)
  | None =>
      '(joke, err) <- call_getRandomJoke (FirstName name) (LastName name) ;;
      let err :=
        match err with
        | Some err => Some (fmt.Errorf "error getting joke: %w" (ArgError err))
        | None => None
        end in
      match err with
      | Some _ =>
          ret (http.Error w "failed to get joke" http.StatusInternalServerError)
      | None => ret (returnCompleteJoke joke w)
      end
  end.

(** The functions the two variables hold when the program starts. *)
Definition funcs (W : World) : Bound.t :=
  {| Bound.getRandomName := getRandomName W;
     Bound.getRandomJoke := getRandomJoke W |}.

(** mux.HandleFunc("/", getRoot); server.ListenAndServe() *)
Definition main := serve getRoot funcs.

End Application.

(** ** httpserver/main.go *)

Module Httpserver.

Definition getRandomName (W : World) : M (Names * option error) :=
  match url_Parse W randNameEndpoint with
  | Err err =>
      fmt.Printf "client could not parse url: %s\n" [ArgError err] ;;
      os.Exit 1
  | Ok base =>
  match http_NewRequest W http.MethodGet (url.String_ base) with
  | Err err =>
      fmt.Printf "client could not create request: %s\n" [ArgError err] ;;
      os.Exit 1
  | Ok req =>
  match client_Do W req with
  | Err err =>
      fmt.Printf "client: error making http request: %s\n" [ArgError err] ;;
      os.Exit 1
  | Ok res =>
      fmt.Printf "client: got response!\n" [] ;;
      fmt.Printf "client: status code: %d\n" [ArgInt (http.StatusCode res)] ;;
      match io.ReadAll (http.Body res) with
      | Err err =>
          fmt.Printf "client: could not read response body: %s\n" [ArgError err] ;;
          os.Exit 1
      | Ok resBody =>
          match json.Unmarshal resBody Names_zero with
          | (_, Some err) =>
              fmt.Println [ArgString "Error unmarshalling JSON:"; ArgError err] ;;
              os.Exit 1
          | (n, None) =>
              (* return n, err: the err of io.ReadAll, nil here *)
              ret (n, None)
          end
      end
  end end end.

Definition getRandomJoke (W : World) (firstName lastName : string)
  : M (string * option error) :=
  match url_Parse W randJokeBaseEndpoint with
  | Err err =>
      fmt.Printf "client could not parse url: %s\n" [ArgError err] ;;
      os.Exit 1
  | Ok base =>
  let params : url.Values := [] in
  let params := url.Add "firstName" firstName params in
  let params := url.Add "lastName" lastName params in
  let base := url.setRawQuery (url.Encode params) base in
  match http_NewRequest W http.MethodGet (url.String_ base) with
  | Err err =>
      fmt.Printf "client could not create request: %s\n" [ArgError err] ;;
      os.Exit 1
  | Ok req =>
  match client_Do W req with
  | Err err =>
      fmt.Printf "client: error making http request: %s\n" [ArgError err] ;;
      os.Exit 1
  | Ok res =>
      fmt.Printf "client: got response!\n" [] ;;
      fmt.Printf "client: status code: %d\n" [ArgInt (http.StatusCode res)] ;;
      match io.ReadAll (http.Body res) with
      | Err err =>
          fmt.Printf "client: could not read response body: %s\n" [ArgError err] ;;
          os.Exit 1
      | Ok resBody =>
          match json.Unmarshal resBody Joke_zero with
          | (_, Some err) =>
              fmt.Println [ArgString "Error unmarshalling JSON:"; ArgError err] ;;
              os.Exit 1
          | (j, None) => ret (Joke_ (Value j), None)
          end
      end
  end end end.

Definition returnCompleteJoke (joke : string) (w : http.ResponseWriter)
  : http.ResponseWriter :=
  match io.WriteString w joke with
  | (w, Some _) =>
      http.Error w "Failed to write response" http.StatusInternalServerError
  | (w, None) => w
  end.

Definition getRoot (w : http.ResponseWriter) (r : http.Request)
  : Prog http.ResponseWriter :=
  '(name, err) <- call_getRandomName ;;
  match err with
  | Some err =>
      println [ArgString "Error getting name:"; ArgError err] ;;
      ret (http.Error w "Failed to get name" http.StatusInternalServerError)
  | None =>
      '(joke, err) <- call_getRandomJoke (FirstName name) (LastName name) ;;
      match err with
      | Some err =>
          println [ArgString "Error getting joke:"; ArgError err] ;;
          ret (http.Error w "Failed to get joke" http.StatusInternalServerError)
      | None => ret (returnCompleteJoke joke w)
      end
  end.

Definition funcs (W : World) : Bound.t :=
  {| Bound.getRandomName := getRandomName W;
     Bound.getRandomJoke := getRandomJoke W |}.

(** mux.HandleFunc("/", getRoot); server.ListenAndServe() *)
Definition main := serve getRoot funcs.

End Httpserver.

(** ** Test doubles and concrete worlds *)

(** Functions that return fixed values and touch nothing, as the tests
    bind them to [getRandomName] and [getRandomJoke]. *)
Definition fixed (name : Names * option error)
    (joke : string -> string -> string * option error) : Bound.t :=
  {| Bound.getRandomName := ret name;
     Bound.getRandomJoke := fun firstName lastName => ret (joke firstName lastName) |}.

Definition JohnDoe : Names := {| FirstName := "John"; LastName := "Doe" |}.

(** The bindings of TestGetRoot. *)
Definition mocked : Bound.t :=
  fixed (JohnDoe, None) (fun _ _ => ("Mocked joke about John Doe", None)).

(** The bindings of TestGetRootFailures. *)
Definition mockedNameFailure : Bound.t :=
  fixed (Names_zero, Some (errorString "failed to fetch name"))
        (fun _ _ => ("Mocked joke about John Doe", None)).

Definition mockedJokeFailure : Bound.t :=
  fixed (JohnDoe, None)
        (fun _ _ => ("", Some (errorString "failed to fetch joke"))).

(** http.NewRequest(http.MethodGet, "/", nil) *)
Definition GET_root : http.Request :=
  {| http.Method := "GET"; http.URL := "/"; http.ReqHeader := [];
     http.ReqBody := "" |}.

Definition POST_anything : http.Request :=
  {| http.Method := "POST"; http.URL := "/anything?x=1";
     http.ReqHeader := [("Content-Type", "text/plain")];
     http.ReqBody := "hello" |}.

Definition start : Proc := {| stdout := [] |}.

Definition newline : string := String (json.char 10) "".

(** A URL split at its first question mark. *)
Fixpoint splitQuery (s : string) : string * string :=
  match s with
  | EmptyString => (EmptyString, EmptyString)
  | String c rest =>
      if (json.byte c =? 63)%N then (EmptyString, rest)
      else let (b, q) := splitQuery rest in (String c b, q)
  end.

(** A world in which URLs parse, requests are created, and the name and
    the joke service answer as given. *)
Definition world (nameService jokeService : result http.Response) : World :=
  {| url_Parse := fun s =>
       let (b, q) := splitQuery s in Ok {| url.Base := b; url.RawQuery := q |};
     http_NewRequest := fun method u =>
       Ok {| http.Method := method; http.URL := u; http.ReqHeader := [];
             http.ReqBody := "" |};
     client_Do := fun req =>
       if String.prefix randNameEndpoint (http.URL req)
       then nameService else jokeService |}.

Definition reply (code : Z) (body : string) : result http.Response :=
  Ok {| http.StatusCode := code; http.Body := Ok body |}.

Definition q : string := String json.quote "".

(** {"first_name":"John","last_name":"Doe"} *)
Definition JohnDoe_json : string :=
  "{" ++ q ++ "first_name" ++ q ++ ":" ++ q ++ "John" ++ q ++ ","
      ++ q ++ "last_name" ++ q ++ ":" ++ q ++ "Doe" ++ q ++ "}".

(** {"value":{"joke":"John Doe counts in binary."}} *)
Definition joke_json : string :=
  "{" ++ q ++ "value" ++ q ++ ":{" ++ q ++ "joke" ++ q ++ ":"
      ++ q ++ "John Doe counts in binary." ++ q ++ "}}".

Definition connectionRefused : result http.Response :=
  Err (errorString "dial tcp: connection refused").

(** The world [W] with every response of a remote service given the
    status code [code]. *)
Definition withStatus (code : Z) (W : World) : World :=
  {| url_Parse := url_Parse W;
     http_NewRequest := http_NewRequest W;
     client_Do := fun req =>
       match client_Do W req with
       | Ok res => Ok {| http.StatusCode := code; http.Body := http.Body res |}
       | Err err => Err err
       end |}.

(** The name service is reached and [data] is read from its response:
    the URL parses, the request is created, the call returns a response
    and io.ReadAll returns [data]. *)
Definition nameServiceSends (W : World) (data : string) : Prop :=
  exists base req res,
    url_Parse W randNameEndpoint = Ok base
    /\ http_NewRequest W http.MethodGet (url.String_ base) = Ok req
    /\ client_Do W req = Ok res
    /\ http.Body res = Ok data.

(** The same for the joke service, asked about [firstName lastName]. *)
Definition jokeServiceSends (W : World) (firstName lastName data : string)
  : Prop :=
  exists base req res,
    url_Parse W randJokeBaseEndpoint = Ok base
    /\ http_NewRequest W http.MethodGet
         (url.String_
            (url.setRawQuery
               (url.Encode (url.Add "lastName" lastName
                              (url.Add "firstName" firstName [])))
               base)) = Ok req
    /\ client_Do W req = Ok res
    /\ http.Body res = Ok data.

Definition NamesFields : list string := ["first_name"; "last_name"].

Definition isString (v : json.value) : bool :=
  match v with json.JString _ => true | _ => false end.

Definition isNull (v : json.value) : bool :=
  match v with json.JNull => true | _ => false end.

(** Member [kv] of an object selects field [i] of Names. *)
Definition selectsName (i : nat) (kv : string * json.value) : bool :=
  match json.field NamesFields (fst kv) with
  | Some j => Nat.eqb i j
  | None => false
  end.

(** The object has a string for field [i] of Names. *)
Definition givesName (i : nat) (members : list (string * json.value)) : bool :=
  existsb (fun kv => selectsName i kv && isString (snd kv)) members.

(** Every member that selects a field of Names is a string or null. *)
Definition namesFit (members : list (string * json.value)) : bool :=
  forallb (fun kv =>
             match json.field NamesFields (fst kv) with
             | Some _ => isString (snd kv) || isNull (snd kv)
             | None => true
             end) members.

(** No member of the object gives a string for "joke": those that
    select it are null. *)
Definition noJokeString (members : list (string * json.value)) : bool :=
  forallb (fun kv =>
             match json.field ["joke"] (fst kv) with
             | Some _ => isNull (snd kv)
             | None => true
             end) members.

(** The value is null, or an object in which every member that selects
    "value" is null or an object without a string for "joke". *)
Definition lacksJoke (v : json.value) : bool :=
  match v with
  | json.JNull => true
  | json.JObject members =>
      forallb (fun kv =>
                 match json.field ["value"] (fst kv) with
                 | Some _ =>
                     match snd kv with
                     | json.JNull => true
                     | json.JObject inner => noJokeString inner
                     | _ => false
                     end
                 | None => true
                 end) members
  | _ => false
  end.

(** What getRandomName returns once the body of the response is read. *)
Definition namesOf (data : string) : Names * option error :=
  if json.Valid data then
    match json.Unmarshal data Names_zero with
    | (_, Some err) =>
        (Names_zero, Some (fmt.Errorf "error unmarshalling JSON: %s" (ArgError err)))
    | (n, None) => (n, None)
    end
  else
    (Names_zero,
     Some (fmt.Errorf "non-JSON response received: %s" (ArgString data))).

(** What getRandomJoke returns once the body of the response is read. *)
Definition jokeOf (data : string) : string * option error :=
  match json.Unmarshal data Joke_zero with
  | (_, Some err) =>
      ("", Some (fmt.Errorf "error unmarshalling JSON: %s" (ArgError err)))
  | (j, None) => (Joke_ (Value j), None)
  end.

(** A status code of the 2xx class. *)
Definition is2xx (code : Z) : bool := ((200 <=? code) && (code <=? 299))%Z.

(** {"first_name":"John"} *)
Definition John_json : string :=
  "{" ++ q ++ "first_name" ++ q ++ ":" ++ q ++ "John" ++ q ++ "}".

(** {"value":{"joke":5}} *)
Definition numberJoke_json : string :=
  "{" ++ q ++ "value" ++ q ++ ":{" ++ q ++ "joke" ++ q ++ ":5}}".

(** The name service answers 404 with a body that holds a name. *)
Definition world404 : World :=
  world (reply 404 JohnDoe_json) (reply 200 joke_json).

(** The name service cannot be reached. *)
Definition worldDown : World := world connectionRefused (reply 200 joke_json).

(** Both services answer as expected. *)
Definition worldUp : World :=
  world (reply 200 JohnDoe_json) (reply 200 joke_json).

(** The joke service answers with an empty array. *)
Definition worldArray : World := world (reply 200 JohnDoe_json) (reply 200 "[]").

(** The joke service answers with a number where the joke should be. *)
Definition worldNumber : World :=
  world (reply 200 JohnDoe_json) (reply 200 numberJoke_json).

(** The joke service answers with an empty object. *)
Definition worldEmpty : World := world (reply 200 JohnDoe_json) (reply 200 "{}").

Definition status (r : Run http.ResponseWriter) : option Z :=
  option_map fst (response r).

Definition body (r : Run http.ResponseWriter) : option string :=
  option_map snd (response r).

(** ** Relating the two programs *)

(** What a provider of httpserver/main.go does, [srv], against what the
    same provider of application/main.go does, [app]: the same value
    without an error, or the end of the process with exit code 1 where
    [app] returns an error. *)
Definition sameOrExit {A} (app srv : Outcome (A * option error)) : Prop :=
  match app with
  | Val (a, None) => srv = Val (a, None)
  | Val (_, Some _) => srv = Exit 1
  | Exit _ => False
  end.

(** The two bodies an error response of application/main.go can have. *)
Definition failedToGetName : string := "failed to get name" ++ newline.
Definition failedToGetJoke : string := "failed to get joke" ++ newline.

(** A response application/main.go can give: 200, or 500 with one of the
    two fixed bodies. *)
Definition answered (w : http.ResponseWriter) : Prop :=
  http.Code w = 200%Z
  \/ (http.Code w = 500%Z
      /\ (http.Written w = failedToGetName \/ http.Written w = failedToGetJoke)).

(** ** Bodies that decode *)

Definition stringOrNull (kv : string * json.value) : bool :=
  isString (snd kv) || isNull (snd kv).

(** Every member of [members] that selects a field of [names] is [good]. *)
Definition membersFit (names : list string)
    (good : string * json.value -> bool)
    (members : list (string * json.value)) : bool :=
  forallb (fun kv =>
             match json.field names (fst kv) with
             | Some _ => good kv
             | None => true
             end) members.

(** A value for the field "value" of Joke that decodes: null, or an
    object whose members that select "joke" are strings or null. *)
Definition jokeValueFits (kv : string * json.value) : bool :=
  match snd kv with
  | json.JNull => true
  | json.JObject inner => membersFit ["joke"] stringOrNull inner
  | _ => false
  end.

(** The bodies getRandomName decodes without an error: JSON null, and
    JSON objects whose members that select first_name or last_name are
    strings or null. *)
Definition namesAccepted (data : string) : bool :=
  match json.parse data with
  | Some json.JNull => true
  | Some (json.JObject members) => namesFit members
  | _ => false
  end.

(** The bodies getRandomJoke decodes without an error: JSON null, and
    JSON objects whose members that select "value" fit. *)
Definition jokeAccepted (data : string) : bool :=
  match json.parse data with
  | Some json.JNull => true
  | Some (json.JObject members) => membersFit ["value"] jokeValueFits members
  | _ => false
  end.

(** {"first_name":"John","last_name":5} *)
Definition JohnFive_json : string :=
  "{" ++ q ++ "first_name" ++ q ++ ":" ++ q ++ "John" ++ q ++ ","
      ++ q ++ "last_name" ++ q ++ ":5}".

(** ** The query of the joke request *)

(** The bytes url.QueryEscape leaves or produces: letters, digits, the
    marks - _ . ~ and the signs + and %. *)
Definition queryByte (c : ascii) : bool :=
  url.unreserved c || (json.byte c =? 43)%N || (json.byte c =? 37)%N.

(** The URL of the joke request for a parsed base endpoint and a name. *)
Definition jokeURL (base : url.URL) (firstName lastName : string) : string :=
  url.Base base ++ "?firstName=" ++ url.QueryEscape firstName
                ++ "&lastName=" ++ url.QueryEscape lastName.

(** ** What is printed *)

(** The two lines a provider prints when it received a response. *)
Definition isStatusLog (o : output) : bool :=
  match o with
  | Printf format [] => String.eqb format "client: got response!\n"
  | Printf format [ArgInt _] => String.eqb format "client: status code: %d\n"
  | _ => false
  end.

(** A line that prints an error value. *)
Definition printsError (o : output) : bool :=
  match o with
  | Printf _ args | Println args =>
      existsb (fun a => match a with ArgError _ => true | _ => false end) args
  end.

(** ** Bodies without a joke *)

(** The object has a string for "joke". *)
Definition givesJoke (inner : list (string * json.value)) : bool :=
  existsb (fun kv =>
             match json.field ["joke"] (fst kv) with
             | Some _ => isString (snd kv)
             | None => false
             end) inner.

(** The value has a string at value.joke: it is an object with a member
    that selects "value" and is an object with a string for "joke". *)
Definition hasJokeString (v : json.value) : bool :=
  match v with
  | json.JObject members =>
      existsb (fun kv =>
                 match json.field ["value"] (fst kv) with
                 | Some _ =>
                     match snd kv with
                     | json.JObject inner => givesJoke inner
                     | _ => false
                     end
                 | None => false
                 end) members
  | _ => false
  end.

(** The values that decode into Joke without an error. *)
Definition jokeFits (v : json.value) : bool :=
  match v with
  | json.JNull => true
  | json.JObject members => membersFit ["value"] jokeValueFits members
  | _ => false
  end.

(** {"value":"abc"} *)
Definition stringValue_json : string :=
  "{" ++ q ++ "value" ++ q ++ ":" ++ q ++ "abc" ++ q ++ "}".

(** * Properties *)

Local Open Scope Z_scope.

(** A goal that a computation in [M] returns to its caller. *)
Ltac returned := cbn; do 2 eexists; reflexivity.

(** ** The response writer *)

Lemma fresh_inv (w : http.ResponseWriter) :
  fresh w = true ->
  http.wroteHeader w = false /\ http.Written w = "" /\ http.writeErr w = None.
Proof.
  unfold fresh. intros H.
  apply andb_prop in H as [H Herr]. apply andb_prop in H as [Hh Hb].
  repeat split.
  - now destruct (http.wroteHeader w).
  - now apply String.eqb_eq.
  - now destruct (http.writeErr w).
Qed.

Lemma Error_Code (w : http.ResponseWriter) (msg : string) (code : Z) :
  http.wroteHeader w = false ->
  http.Code (http.Error w msg code) = code.
Proof.
  intros Hw. unfold http.Error, http.Write, http.WriteHeader, http.setHeader.
  cbn. rewrite Hw. cbn. now destruct (http.writeErr w).
Qed.

Lemma Error_Written (w : http.ResponseWriter) (msg : string) (code : Z) :
  http.writeErr w = None ->
  http.Written (http.Error w msg code) = http.Written w ++ msg ++ newline.
Proof.
  intros He. unfold http.Error, http.Write, http.WriteHeader, http.setHeader.
  cbn. destruct (http.wroteHeader w); cbn; rewrite He; reflexivity.
Qed.

Lemma Error_fresh (w : http.ResponseWriter) (msg : string) (code : Z) :
  fresh w = true ->
  http.Code (http.Error w msg code) = code
  /\ http.Written (http.Error w msg code) = msg ++ newline.
Proof.
  intros H. apply fresh_inv in H as (Hh & Hb & He). split.
  - now apply Error_Code.
  - rewrite Error_Written by assumption. now rewrite Hb.
Qed.

Lemma WriteString_fresh (w : http.ResponseWriter) (data : string) :
  fresh w = true ->
  exists w', io.WriteString w data = (w', None)
             /\ http.Code w' = 200 /\ http.Written w' = data.
Proof.
  intros H. apply fresh_inv in H as (Hh & Hb & He).
  unfold io.WriteString, http.Write, http.WriteHeader.
  rewrite Hh. cbn. rewrite He. eexists. split; [reflexivity|].
  cbn. now rewrite Hb.
Qed.

Lemma WriteString_Code (w : http.ResponseWriter) (data : string) :
  http.wroteHeader w = false ->
  http.Code (fst (io.WriteString w data)) = 200
  /\ http.wroteHeader (fst (io.WriteString w data)) = true.
Proof.
  intros Hh. unfold io.WriteString, http.Write, http.WriteHeader.
  rewrite Hh. cbn. now destruct (http.writeErr w).
Qed.

(** ** One run of the handler, by what the two calls return *)

Arguments http.Error : simpl never.
Arguments Application.returnCompleteJoke : simpl never.
Arguments Httpserver.returnCompleteJoke : simpl never.

Section Handler.

Variable P : Bound.t.
Variables (w : http.ResponseWriter) (r : http.Request).
Variables (s s1 : Proc) (n : Names).

Lemma application_name_error (cause : error) :
  Bound.getRandomName P s = (Val (n, Some cause), s1) ->
  exec P (Application.getRoot w r) s =
  {| calls := [CalledName];
     outcome := Val (http.Error w "failed to get name" 500);
     final := s1 |}.
Proof. intros H. cbn. rewrite H. reflexivity. Qed.

Lemma httpserver_name_error (cause : error) :
  Bound.getRandomName P s = (Val (n, Some cause), s1) ->
  exec P (Httpserver.getRoot w r) s =
  {| calls := [CalledName];
     outcome := Val (http.Error w "Failed to get name" 500);
     final := {| stdout := stdout s1 ++
                   [Println [ArgString "Error getting name:"; ArgError cause]] |} |}.
Proof. intros H. cbn. rewrite H. reflexivity. Qed.

Lemma application_joke_exit (code : Z) (s2 : Proc) :
  Bound.getRandomName P s = (Val (n, None), s1) ->
  Bound.getRandomJoke P (FirstName n) (LastName n) s1 = (Exit code, s2) ->
  exec P (Application.getRoot w r) s =
  {| calls := [CalledName; CalledJoke (FirstName n) (LastName n)];
     outcome := Exit code;
     final := s2 |}.
Proof. intros H1 H2. cbn. rewrite H1. cbn. rewrite H2. reflexivity. Qed.

Lemma application_joke_error (j : string) (cause : error) (s2 : Proc) :
  Bound.getRandomName P s = (Val (n, None), s1) ->
  Bound.getRandomJoke P (FirstName n) (LastName n) s1 = (Val (j, Some cause), s2) ->
  exec P (Application.getRoot w r) s =
  {| calls := [CalledName; CalledJoke (FirstName n) (LastName n)];
     outcome := Val (http.Error w "failed to get joke" 500);
     final := s2 |}.
Proof. intros H1 H2. cbn. rewrite H1. cbn. rewrite H2. reflexivity. Qed.

Lemma httpserver_joke_error (j : string) (cause : error) (s2 : Proc) :
  Bound.getRandomName P s = (Val (n, None), s1) ->
  Bound.getRandomJoke P (FirstName n) (LastName n) s1 = (Val (j, Some cause), s2) ->
  exec P (Httpserver.getRoot w r) s =
  {| calls := [CalledName; CalledJoke (FirstName n) (LastName n)];
     outcome := Val (http.Error w "Failed to get joke" 500);
     final := {| stdout := stdout s2 ++
                   [Println [ArgString "Error getting joke:"; ArgError cause]] |} |}.
Proof. intros H1 H2. cbn. rewrite H1. cbn. rewrite H2. reflexivity. Qed.

Lemma application_success (j : string) (s2 : Proc) :
  Bound.getRandomName P s = (Val (n, None), s1) ->
  Bound.getRandomJoke P (FirstName n) (LastName n) s1 = (Val (j, None), s2) ->
  exec P (Application.getRoot w r) s =
  {| calls := [CalledName; CalledJoke (FirstName n) (LastName n)];
     outcome := Val (Application.returnCompleteJoke j w);
     final := s2 |}.
Proof. intros H1 H2. cbn. rewrite H1. cbn. rewrite H2. reflexivity. Qed.

End Handler.

Lemma returnCompleteJoke_fresh (joke : string) (w : http.ResponseWriter) :
  fresh w = true ->
  http.Code (Application.returnCompleteJoke joke w) = 200
  /\ http.Written (Application.returnCompleteJoke joke w) = joke.
Proof.
  intros H. destruct (WriteString_fresh w joke H) as (w' & Hw & Hc & Hb).
  unfold Application.returnCompleteJoke. rewrite Hw. now split.
Qed.

(** ** The handler *)

(** C1. When the call of getRandomName returns an error, the handler
    makes no call of getRandomJoke (the name call is the only call of
    the run) and the response has status 500. This holds for getRoot
    of application/main.go, which also leaves the process as the name
    call left it, and for getRoot of httpserver/main.go. *)
Theorem name_error_skips_joke_and_gives_500 :
  forall (P : Bound.t) (w : http.ResponseWriter) (r : http.Request)
         (s s1 : Proc) (n : Names) (cause : error),
    Bound.getRandomName P s = (Val (n, Some cause), s1) ->
    http.wroteHeader w = false ->
    let app := exec P (Application.getRoot w r) s in
    let srv := exec P (Httpserver.getRoot w r) s in
    (calls app = [CalledName] /\ status app = Some 500 /\ final app = s1)
    /\ (calls srv = [CalledName] /\ status srv = Some 500).
Proof.
  intros P w r s s1 n cause Hname Hw app srv. subst app srv.
  rewrite (application_name_error P w r s s1 n cause Hname).
  rewrite (httpserver_name_error P w r s s1 n cause Hname).
  unfold status, response. cbn [calls outcome final option_map fst].
  rewrite !Error_Code by assumption. repeat split.
Qed.

Lemma name_error_skips_joke_and_gives_500_witness :
  Bound.getRandomName mockedNameFailure start
  = (Val (Names_zero, Some (errorString "failed to fetch name")), start)
  /\ http.wroteHeader httptest.NewRecorder = false
  /\ (calls (exec mockedNameFailure
               (Application.getRoot httptest.NewRecorder GET_root) start)
      = [CalledName]
      /\ status (exec mockedNameFailure
                   (Application.getRoot httptest.NewRecorder GET_root) start)
         = Some 500
      /\ final (exec mockedNameFailure
                  (Application.getRoot httptest.NewRecorder GET_root) start)
         = start)
  /\ (calls (exec mockedNameFailure
               (Httpserver.getRoot httptest.NewRecorder GET_root) start)
      = [CalledName]
      /\ status (exec mockedNameFailure
                   (Httpserver.getRoot httptest.NewRecorder GET_root) start)
         = Some 500).
Proof.
  split; [reflexivity|]. split; [reflexivity|].
  apply (name_error_skips_joke_and_gives_500 mockedNameFailure
           httptest.NewRecorder GET_root start start Names_zero
           (errorString "failed to fetch name")); reflexivity.
Defined.

(** C2. When both calls return without an error, the response of getRoot
    (application/main.go) has status 200 and its body is the string
    getRandomJoke returned, byte for byte. The writer is one on which
    nothing was written and whose writes succeed. *)
Theorem success_gives_200_and_the_joke :
  forall (P : Bound.t) (w : http.ResponseWriter) (r : http.Request)
         (s s1 s2 : Proc) (n : Names) (joke : string),
    Bound.getRandomName P s = (Val (n, None), s1) ->
    Bound.getRandomJoke P (FirstName n) (LastName n) s1 = (Val (joke, None), s2) ->
    fresh w = true ->
    response (exec P (Application.getRoot w r) s) = Some (200, joke).
Proof.
  intros P w r s s1 s2 n joke Hname Hjoke Hw.
  rewrite (application_success P w r s s1 n joke s2 Hname Hjoke).
  unfold response. cbn [outcome].
  destruct (returnCompleteJoke_fresh joke w Hw) as [Hc Hb].
  now rewrite Hc, Hb.
Qed.

Lemma success_gives_200_and_the_joke_witness :
  Bound.getRandomName mocked start = (Val (JohnDoe, None), start)
  /\ Bound.getRandomJoke mocked "John" "Doe" start
     = (Val ("Mocked joke about John Doe", None), start)
  /\ fresh httptest.NewRecorder = true
  /\ response (exec mocked (Application.getRoot httptest.NewRecorder GET_root) start)
     = Some (200, "Mocked joke about John Doe").
Proof.
  split; [reflexivity|]. split; [reflexivity|]. split; [reflexivity|].
  apply (success_gives_200_and_the_joke mocked httptest.NewRecorder GET_root
           start start start JohnDoe "Mocked joke about John Doe");
    reflexivity.
Defined.

(** C5, as the claim states it, fails: the body of the error response is
    not the bare message. http.Error prints the message with
    fmt.Fprintln, that is with a newline after it. Here the name call
    and then the joke call fail in application/main.go. *)
Lemma error_body_is_not_the_bare_message :
  body (exec mockedNameFailure
          (Application.getRoot httptest.NewRecorder GET_root) start)
  = Some ("failed to get name" ++ newline)
  /\ ("failed to get name" ++ newline =? "failed to get name")%string = false
  /\ body (exec mockedJokeFailure
             (Application.getRoot httptest.NewRecorder GET_root) start)
     = Some ("failed to get joke" ++ newline)
  /\ ("failed to get joke" ++ newline =? "failed to get joke")%string = false.
Proof. repeat split. Qed.

(** C5, amended. In application/main.go a failure of a provider reaches
    the client as status 500 and a body fixed by the stage, whatever the
    cause: the message followed by a newline, "failed to get name" when
    getRandomName returns an error and "failed to get joke" when
    getRandomJoke does. *)
Theorem provider_error_gives_500_and_fixed_body :
  forall (P : Bound.t) (w : http.ResponseWriter) (r : http.Request)
         (s s1 : Proc) (n : Names) (cause : error),
    fresh w = true ->
    let app := exec P (Application.getRoot w r) s in
    (Bound.getRandomName P s = (Val (n, Some cause), s1) ->
     response app = Some (500, "failed to get name" ++ newline))
    /\ (forall (j : string) (s2 : Proc),
          Bound.getRandomName P s = (Val (n, None), s1) ->
          Bound.getRandomJoke P (FirstName n) (LastName n) s1
          = (Val (j, Some cause), s2) ->
          response app = Some (500, "failed to get joke" ++ newline)).
Proof.
  intros P w r s s1 n cause Hw app. subst app. split.
  - intros Hname.
    rewrite (application_name_error P w r s s1 n cause Hname).
    unfold response. cbn [outcome].
    now destruct (Error_fresh w "failed to get name" 500 Hw) as [-> ->].
  - intros j s2 Hname Hjoke.
    rewrite (application_joke_error P w r s s1 n j cause s2 Hname Hjoke).
    unfold response. cbn [outcome].
    now destruct (Error_fresh w "failed to get joke" 500 Hw) as [-> ->].
Qed.

Lemma provider_error_gives_500_and_fixed_body_witness :
  fresh httptest.NewRecorder = true
  /\ response (exec mockedNameFailure
                 (Application.getRoot httptest.NewRecorder GET_root) start)
     = Some (500, "failed to get name" ++ newline)
  /\ response (exec mockedJokeFailure
                 (Application.getRoot httptest.NewRecorder GET_root) start)
     = Some (500, "failed to get joke" ++ newline).
Proof.
  split; [reflexivity|]. split.
  - apply (proj1 (provider_error_gives_500_and_fixed_body mockedNameFailure
                    httptest.NewRecorder GET_root start start Names_zero
                    (errorString "failed to fetch name") eq_refl)).
    reflexivity.
  - apply (proj2 (provider_error_gives_500_and_fixed_body mockedJokeFailure
                    httptest.NewRecorder GET_root start start JohnDoe
                    (errorString "failed to fetch joke") eq_refl)
             "" start); reflexivity.
Defined.

(** C6. When the call of getRandomName returns a name without an error,
    the next and only other call of getRoot (application/main.go) is
    getRandomJoke with the first and the last name of that result,
    unchanged; it runs in the process as the name call left it, and
    nothing else touches the process. *)
Theorem joke_is_called_with_the_name_returned :
  forall (P : Bound.t) (w : http.ResponseWriter) (r : http.Request)
         (s s1 : Proc) (n : Names),
    Bound.getRandomName P s = (Val (n, None), s1) ->
    let run := exec P (Application.getRoot w r) s in
    calls run = [CalledName; CalledJoke (FirstName n) (LastName n)]
    /\ final run = snd (Bound.getRandomJoke P (FirstName n) (LastName n) s1).
Proof.
  intros P w r s s1 n Hname run. subst run.
  destruct (Bound.getRandomJoke P (FirstName n) (LastName n) s1)
    as [[[j [cause|]]|code] s2] eqn:Hjoke.
  - rewrite (application_joke_error P w r s s1 n j cause s2 Hname Hjoke).
    now split.
  - rewrite (application_success P w r s s1 n j s2 Hname Hjoke). now split.
  - rewrite (application_joke_exit P w r s s1 n code s2 Hname Hjoke).
    now split.
Qed.

Lemma joke_is_called_with_the_name_returned_witness :
  Bound.getRandomName mocked start = (Val (JohnDoe, None), start)
  /\ calls (exec mocked (Application.getRoot httptest.NewRecorder GET_root) start)
     = [CalledName; CalledJoke "John" "Doe"]
  /\ final (exec mocked (Application.getRoot httptest.NewRecorder GET_root) start)
     = start.
Proof.
  split; [reflexivity|].
  apply (joke_is_called_with_the_name_returned mocked httptest.NewRecorder
           GET_root start start JohnDoe).
  reflexivity.
Defined.

(** C7. With fixed functions bound to getRandomName and getRandomJoke,
    functions that return the same values at every call and touch
    nothing, two runs of getRoot (application/main.go) give the same
    status code and the same body, whatever the two requests and the
    state of the process at each run; both runs do return a response. *)
Theorem fixed_providers_give_identical_responses :
  forall (name : Names * option error)
         (joke : string -> string -> string * option error)
         (w1 w2 : http.ResponseWriter) (r1 r2 : http.Request) (s1 s2 : Proc),
    fresh w1 = true ->
    fresh w2 = true ->
    exists (code : Z) (text : string),
      response (exec (fixed name joke) (Application.getRoot w1 r1) s1)
      = Some (code, text)
      /\ response (exec (fixed name joke) (Application.getRoot w2 r2) s2)
         = Some (code, text).
Proof.
  intros [n [cause|]] joke w1 w2 r1 r2 s1 s2 H1 H2.
  - exists 500, ("failed to get name" ++ newline).
    rewrite (application_name_error (fixed (n, Some cause) joke)
               w1 r1 s1 s1 n cause eq_refl).
    rewrite (application_name_error (fixed (n, Some cause) joke)
               w2 r2 s2 s2 n cause eq_refl).
    unfold response. cbn [outcome].
    destruct (Error_fresh w1 "failed to get name" 500 H1) as [-> ->].
    destruct (Error_fresh w2 "failed to get name" 500 H2) as [-> ->].
    now split.
  - assert (Hcall : forall s : Proc,
               Bound.getRandomJoke (fixed (n, None) joke)
                 (FirstName n) (LastName n) s
               = (Val (joke (FirstName n) (LastName n)), s))
      by reflexivity.
    destruct (joke (FirstName n) (LastName n)) as [j [cause|]].
    + exists 500, ("failed to get joke" ++ newline).
      rewrite (application_joke_error (fixed (n, None) joke)
                 w1 r1 s1 s1 n j cause s1 eq_refl (Hcall s1)).
      rewrite (application_joke_error (fixed (n, None) joke)
                 w2 r2 s2 s2 n j cause s2 eq_refl (Hcall s2)).
      unfold response. cbn [outcome].
      destruct (Error_fresh w1 "failed to get joke" 500 H1) as [-> ->].
      destruct (Error_fresh w2 "failed to get joke" 500 H2) as [-> ->].
      now split.
    + exists 200, j.
      rewrite (application_success (fixed (n, None) joke)
                 w1 r1 s1 s1 n j s1 eq_refl (Hcall s1)).
      rewrite (application_success (fixed (n, None) joke)
                 w2 r2 s2 s2 n j s2 eq_refl (Hcall s2)).
      unfold response. cbn [outcome].
      destruct (returnCompleteJoke_fresh j w1 H1) as [-> ->].
      destruct (returnCompleteJoke_fresh j w2 H2) as [-> ->].
      now split.
Qed.

Lemma fixed_providers_give_identical_responses_witness :
  fresh httptest.NewRecorder = true
  /\ exists (code : Z) (text : string),
       response (exec mocked (Application.getRoot httptest.NewRecorder GET_root)
                   start)
       = Some (code, text)
       /\ response (exec mocked
                      (Application.getRoot httptest.NewRecorder POST_anything)
                      {| stdout := [Println [ArgString "earlier request"]] |})
          = Some (code, text).
Proof.
  split; [reflexivity|].
  apply (fixed_providers_give_identical_responses
           (JohnDoe, None) (fun _ _ => ("Mocked joke about John Doe", None))
           httptest.NewRecorder httptest.NewRecorder GET_root POST_anything
           start {| stdout := [Println [ArgString "earlier request"]] |});
    reflexivity.
Defined.

(** C10. getRoot (application/main.go) does not read the request: the
    program it runs is the same for any two requests, so with the same
    bound functions, writer and process the whole run (the calls, the
    response, the process afterwards) is the same. *)
Theorem getRoot_ignores_the_request :
  forall (r1 r2 : http.Request),
    (forall (w : http.ResponseWriter),
        Application.getRoot w r1 = Application.getRoot w r2)
    /\ (forall (P : Bound.t) (w : http.ResponseWriter) (s : Proc),
          exec P (Application.getRoot w r1) s
          = exec P (Application.getRoot w r2) s).
Proof. intros r1 r2. repeat split. Qed.

(** ** encoding/json on concrete texts *)

Example parse_JohnDoe :
  json.parse JohnDoe_json
  = Some (json.JObject [("first_name", json.JString "John");
                        ("last_name", json.JString "Doe")]).
Proof. reflexivity. Qed.

Example parse_nested :
  json.parse " [1, -2.5e+3, true, null, {}, []] "
  = Some (json.JArray [json.JNumber "1"; json.JNumber "-2.5e+3";
                       json.JBool true; json.JNull; json.JObject [];
                       json.JArray []]).
Proof. reflexivity. Qed.

Example parse_invalid :
  map json.Valid [""; "{"; "[1,]"; "01"; "nul"; "{} x"; "<html>"]
  = [false; false; false; false; false; false; false].
Proof. reflexivity. Qed.

Example field_by_folding :
  map (json.field NamesFields)
      ["first_name"; "LAST_NAME"; "First_Name"; "firstname"; "name";
       "fir" ++ String (json.char 197) (String (json.char 191) "t_name")]
  = [Some 0%nat; Some 1%nat; Some 0%nat; None; None; Some 0%nat].
Proof. reflexivity. Qed.

Example Unmarshal_JohnDoe :
  json.Unmarshal JohnDoe_json Names_zero = (JohnDoe, None).
Proof. reflexivity. Qed.

Example Unmarshal_joke :
  json.Unmarshal joke_json Joke_zero
  = ({| Value := {| Joke_ := "John Doe counts in binary." |} |}, None).
Proof. reflexivity. Qed.

Example Unmarshal_array :
  json.Unmarshal "[]" Names_zero
  = (Names_zero, Some (UnmarshalTypeError "array" "")).
Proof. reflexivity. Qed.

(** The joke request carries the two names as its whole query: the
    query of the base endpoint is replaced. *)
Example joke_request_url :
  fst (Application.getRandomJoke
         {| url_Parse := url_Parse worldUp;
            http_NewRequest := http_NewRequest worldUp;
            client_Do := fun req => Err (errorString (http.URL req)) |}
         "John" "Mc Doe" start)
  = Val ("", Some (fmt.Errorf "client: error making http request: %s"
                     (ArgError (errorString
                        "http://joke.loc8u.com:8888/joke?firstName=John&lastName=Mc+Doe")))).
Proof. reflexivity. Qed.

(** ** Decoding the two structs *)

Lemma saved_error_stays {T} (names : list string)
    (fieldDecoder : nat -> json.decoder T) :
  (forall i v cur e, snd (fieldDecoder i v cur (Some e)) = Some e) ->
  forall members cur e,
    snd (json.decodeMembers names fieldDecoder members cur (Some e)) = Some e.
Proof.
  intros Hfield members. induction members as [|[key v] rest IH]; intros cur e.
  - reflexivity.
  - cbn [json.decodeMembers]. destruct (json.field names key) as [i|].
    + specialize (Hfield i v cur e).
      destruct (fieldDecoder i v cur (Some e)) as [cur' saved'].
      cbn in Hfield. subst saved'. apply IH.
    + apply IH.
Qed.

Lemma decodeString_saved (path : string) (v : json.value) (cur : string)
    (e : error) :
  snd (json.decodeString path v cur (Some e)) = Some e.
Proof. now destruct v. Qed.

Lemma decodeNamesField_saved (i : nat) (v : json.value) (cur : Names)
    (e : error) :
  snd (decodeNamesField i v cur (Some e)) = Some e.
Proof.
  unfold decodeNamesField. destruct i.
  - pose proof (decodeString_saved "first_name" v (FirstName cur) e) as H.
    destruct (json.decodeString "first_name" v (FirstName cur) (Some e)).
    exact H.
  - pose proof (decodeString_saved "last_name" v (LastName cur) e) as H.
    destruct (json.decodeString "last_name" v (LastName cur) (Some e)).
    exact H.
Qed.

Lemma NamesFields_index (key : string) (i : nat) :
  json.field NamesFields key = Some i -> i = 0%nat \/ i = 1%nat.
Proof.
  unfold json.field, NamesFields. cbn [json.index].
  destruct (String.eqb key "first_name"); [intros [= <-]; now left|].
  destruct (String.eqb key "last_name"); [intros [= <-]; now right|].
  destruct (json.equalFold key "first_name"); [intros [= <-]; now left|].
  destruct (json.equalFold key "last_name"); [intros [= <-]; now right|].
  discriminate.
Qed.

Lemma givesName_cons (i : nat) (key : string) (v : json.value)
    (rest : list (string * json.value)) :
  givesName i ((key, v) :: rest)
  = (match json.field NamesFields key with
     | Some j => Nat.eqb i j
     | None => false
     end && isString v) || givesName i rest.
Proof. reflexivity. Qed.

(** Members that fit are decoded without an error, and a field for
    which they have no string keeps its value. *)
Lemma decodeNames_fit (members : list (string * json.value)) :
  namesFit members = true ->
  forall cur : Names,
  exists n : Names,
    json.decodeMembers NamesFields decodeNamesField members cur None = (n, None)
    /\ (givesName 0 members = false -> FirstName n = FirstName cur)
    /\ (givesName 1 members = false -> LastName n = LastName cur).
Proof.
  induction members as [|[key v] rest IH]; intros Hfit cur.
  - exists cur. now repeat split.
  - cbn [namesFit forallb fst snd] in Hfit.
    apply andb_prop in Hfit as [Hkv Hrest].
    specialize (IH Hrest).
    cbn [json.decodeMembers].
    destruct (json.field NamesFields key) as [i|] eqn:Hfield.
    + destruct (NamesFields_index key i Hfield) as [-> | ->];
        destruct v; try discriminate Hkv;
        cbn [decodeNamesField json.decodeString];
        match goal with
        | |- context [json.decodeMembers _ _ rest ?c None] =>
            destruct (IH c) as (n & Hn & H0 & H1)
        end;
        exists n; (split; [exact Hn|]);
        (split;
         [ intros H; rewrite givesName_cons, Hfield in H; cbn in H;
           try discriminate H; rewrite (H0 H)
         | intros H; rewrite givesName_cons, Hfield in H; cbn in H;
           try discriminate H; rewrite (H1 H) ]);
        reflexivity.
    + destruct (IH cur) as (n & Hn & H0 & H1).
      exists n. split; [exact Hn|].
      split; intros H; rewrite givesName_cons, Hfield in H; cbn in H; auto.
Qed.

(** A member that does not fit makes the decoding end with an error. *)
Lemma decodeNames_unfit (members : list (string * json.value)) :
  namesFit members = false ->
  forall (cur : Names) (saved : option error),
  exists (n : Names) (e : error),
    json.decodeMembers NamesFields decodeNamesField members cur saved = (n, Some e).
Proof.
  induction members as [|[key v] rest IH]; intros Hfit cur saved.
  - discriminate.
  - cbn [namesFit forallb fst snd] in Hfit.
    cbn [json.decodeMembers].
    destruct (json.field NamesFields key) as [i|] eqn:Hfield.
    + destruct (isString v || isNull v) eqn:Hv.
      * cbn [andb] in Hfit.
        destruct (decodeNamesField i v cur saved) as [cur' saved'].
        now apply IH.
      * assert (Herr : exists e, snd (decodeNamesField i v cur saved) = Some e).
        { unfold decodeNamesField.
          destruct i, v, saved; try discriminate Hv; cbn; eauto. }
        destruct Herr as [e He].
        destruct (decodeNamesField i v cur saved) as [cur' saved'].
        cbn in He. subst saved'.
        pose proof (saved_error_stays NamesFields decodeNamesField
                      decodeNamesField_saved rest cur' e) as Hs.
        destruct (json.decodeMembers NamesFields decodeNamesField rest cur' (Some e))
          as [n e'].
        cbn in Hs. subst e'. eauto.
    + now apply IH.
Qed.

Lemma decodeJokeValue_lacks (inner : list (string * json.value)) :
  noJokeString inner = true ->
  forall jv : JokeValue,
  exists jv' : JokeValue,
    json.decodeMembers ["joke"] decodeJokeValueField inner jv None = (jv', None)
    /\ Joke_ jv' = Joke_ jv.
Proof.
  induction inner as [|[key v] rest IH]; intros H jv.
  - now exists jv.
  - cbn [noJokeString forallb fst snd] in H.
    apply andb_prop in H as [Hkv Hrest]. specialize (IH Hrest).
    cbn [json.decodeMembers].
    destruct (json.field ["joke"] key) as [i|].
    + destruct v; try discriminate Hkv.
      cbn [decodeJokeValueField json.decodeString].
      destruct (IH {| Joke_ := Joke_ jv |}) as (jv' & Hd & Hj).
      exists jv'. now split.
    + apply IH.
Qed.

Lemma decodeJoke_lacks (members : list (string * json.value)) :
  lacksJoke (json.JObject members) = true ->
  forall j : Joke,
  exists j' : Joke,
    json.decodeMembers ["value"] decodeJokeField members j None = (j', None)
    /\ Joke_ (Value j') = Joke_ (Value j).
Proof.
  induction members as [|[key v] rest IH]; intros H j.
  - now exists j.
  - cbn [lacksJoke forallb fst snd] in H.
    apply andb_prop in H as [Hkv Hrest]. specialize (IH Hrest).
    cbn [json.decodeMembers].
    destruct (json.field ["value"] key) as [i|].
    + destruct v as [|b|lit|str|elems|inner]; try discriminate Hkv.
      * cbn [decodeJokeField json.decodeStruct].
        destruct (IH {| Value := Value j |}) as (j' & Hd & Hj).
        exists j'. now split.
      * unfold decodeJokeField at 1. unfold json.decodeStruct.
        destruct (decodeJokeValue_lacks inner Hkv (Value j)) as (jv' & Hd & Hj).
        rewrite Hd.
        destruct (IH {| Value := jv' |}) as (j' & Hd' & Hj').
        exists j'. split; [exact Hd'|]. cbn in Hj'. congruence.
    + apply IH.
Qed.

(** A JSON text that lacks the joke decodes into the zero Joke. *)
Lemma Unmarshal_lacksJoke (data : string) (v : json.value) :
  json.parse data = Some v ->
  lacksJoke v = true ->
  exists j : Joke,
    json.Unmarshal data Joke_zero = (j, None) /\ Joke_ (Value j) = "".
Proof.
  intros Hp Hl. unfold json.Unmarshal. rewrite Hp.
  destruct v; try discriminate Hl.
  - exists Joke_zero. now split.
  - cbn [json.decode Target_Joke json.decodeStruct].
    destruct (decodeJoke_lacks members Hl Joke_zero) as (j & Hd & Hj).
    exists j. now split.
Qed.

Lemma Valid_parse (data : string) (v : json.value) :
  json.parse data = Some v -> json.Valid data = true.
Proof. intros H. unfold json.Valid. now rewrite H. Qed.

Lemma Unmarshal_Valid {T} `{json.Target T} (data : string) (v v' : T) :
  json.Unmarshal data v = (v', None) -> json.Valid data = true.
Proof.
  unfold json.Unmarshal, json.Valid.
  now destruct (json.parse data).
Qed.

Lemma Unmarshal_Names_object (data : string)
    (members : list (string * json.value)) :
  json.parse data = Some (json.JObject members) ->
  json.Unmarshal data Names_zero
  = json.decodeMembers NamesFields decodeNamesField members Names_zero None.
Proof. intros H. unfold json.Unmarshal. now rewrite H. Qed.

(** ** The providers of application/main.go *)

Lemma application_getRandomName_read (W : World) (data : string) (s : Proc) :
  nameServiceSends W data ->
  fst (Application.getRandomName W s) = Val (namesOf data).
Proof.
  intros (base & req & res & Hu & Hr & Hd & Hb).
  unfold Application.getRandomName, namesOf.
  rewrite Hu, Hr, Hd. cbn. unfold io.ReadAll. rewrite Hb.
  destruct (json.Valid data); [|reflexivity].
  now destruct (json.Unmarshal data Names_zero) as [n [err|]].
Qed.

Lemma application_getRandomJoke_read (W : World)
    (firstName lastName data : string) (s : Proc) :
  jokeServiceSends W firstName lastName data ->
  fst (Application.getRandomJoke W firstName lastName s) = Val (jokeOf data).
Proof.
  intros (base & req & res & Hu & Hr & Hd & Hb).
  unfold Application.getRandomJoke, jokeOf.
  rewrite Hu. cbv zeta. rewrite Hr, Hd. cbn. unfold io.ReadAll. rewrite Hb.
  now destruct (json.Unmarshal data Joke_zero) as [j [err|]].
Qed.

(** The providers of application/main.go always return to the handler. *)
Lemma application_getRandomName_returns (W : World) (s : Proc) :
  exists x s', Application.getRandomName W s = (Val x, s').
Proof.
  unfold Application.getRandomName.
  destruct (url_Parse W randNameEndpoint) as [base|]; [|returned].
  destruct (http_NewRequest W http.MethodGet (url.String_ base)) as [req|];
    [|returned].
  destruct (client_Do W req) as [res|]; [|returned].
  cbn. destruct (io.ReadAll (http.Body res)) as [data|]; [|returned].
  destruct (json.Valid data); [|returned].
  destruct (json.Unmarshal data Names_zero) as [n [err|]]; returned.
Qed.

Lemma application_getRandomJoke_returns (W : World)
    (firstName lastName : string) (s : Proc) :
  exists x s', Application.getRandomJoke W firstName lastName s = (Val x, s').
Proof.
  unfold Application.getRandomJoke.
  destruct (url_Parse W randJokeBaseEndpoint) as [base|]; [|returned].
  cbv zeta.
  destruct (http_NewRequest W http.MethodGet _) as [req|]; [|returned].
  destruct (client_Do W req) as [res|]; [|returned].
  cbn. destruct (io.ReadAll (http.Body res)) as [data|]; [|returned].
  destruct (json.Unmarshal data Joke_zero) as [j [err|]]; returned.
Qed.

(** Every request to application/main.go gets a response, with status
    200 or 500, and the process goes on. *)
Lemma application_getRoot_returns (W : World) (w : http.ResponseWriter)
    (r : http.Request) (s : Proc) :
  http.wroteHeader w = false ->
  exists w',
    outcome (exec (Application.funcs W) (Application.getRoot w r) s) = Val w'
    /\ (http.Code w' = 200 \/ http.Code w' = 500).
Proof.
  intros Hw.
  destruct (application_getRandomName_returns W s) as ([n [cause|]] & s1 & Hn).
  - rewrite (application_name_error (Application.funcs W) w r s s1 n cause Hn).
    eexists. split; [reflexivity|]. right. now apply Error_Code.
  - destruct (application_getRandomJoke_returns W (FirstName n) (LastName n) s1)
      as ([j [cause|]] & s2 & Hj).
    + rewrite (application_joke_error (Application.funcs W) w r s s1 n j cause s2
                 Hn Hj).
      eexists. split; [reflexivity|]. right. now apply Error_Code.
    + rewrite (application_success (Application.funcs W) w r s s1 n j s2 Hn Hj).
      eexists. split; [reflexivity|]. left.
      unfold Application.returnCompleteJoke.
      destruct (WriteString_Code w j Hw) as [Hc Hh].
      destruct (io.WriteString w j) as [w' [err|]]; cbn in Hc, Hh.
      * unfold http.Error, http.Write, http.WriteHeader, http.setHeader.
        cbn. rewrite Hh. cbn. now destruct (http.writeErr w').
      * exact Hc.
Qed.

Lemma application_main_serves_all (reqs : list (World * http.Request))
    (s : Proc) :
  exists ws s',
    Application.main reqs s = (ws, Val tt, s')
    /\ length ws = length reqs
    /\ Forall (fun w => http.Code w = 200 \/ http.Code w = 500) ws.
Proof.
  revert s. induction reqs as [|[W r] rest IH]; intros s.
  - exists [], s. now repeat split.
  - unfold Application.main in *. cbn [serve].
    destruct (application_getRoot_returns W httptest.NewRecorder r s eq_refl)
      as (w' & Ho & Hc).
    rewrite Ho.
    destruct (IH (final (exec (Application.funcs W)
                           (Application.getRoot httptest.NewRecorder r) s)))
      as (ws & s' & Hs & Hl & Hf).
    rewrite Hs. exists (w' :: ws), s'. repeat split.
    + cbn. now rewrite Hl.
    + now constructor.
Qed.

(** ** The providers of httpserver/main.go *)

(** getRandomName of httpserver/main.go never returns an error to the
    handler: it returns a name, or it ends the process. *)
Lemma httpserver_getRandomName_no_error (W : World) (s : Proc) :
  (exists n s', Httpserver.getRandomName W s = (Val (n, None), s'))
  \/ (exists s', Httpserver.getRandomName W s = (Exit 1, s')).
Proof.
  unfold Httpserver.getRandomName.
  destruct (url_Parse W randNameEndpoint) as [base|];
    [|right; cbn; eexists; reflexivity].
  destruct (http_NewRequest W http.MethodGet (url.String_ base)) as [req|];
    [|right; cbn; eexists; reflexivity].
  destruct (client_Do W req) as [res|]; [|right; cbn; eexists; reflexivity].
  cbn. destruct (io.ReadAll (http.Body res)) as [data|];
    [|right; cbn; eexists; reflexivity].
  destruct (json.Unmarshal data Names_zero) as [n [err|]].
  - right. cbn. eexists. reflexivity.
  - left. cbn. do 2 eexists. reflexivity.
Qed.

(** When the call of the name service fails, it ends the process with
    exit code 1. *)
Lemma httpserver_getRandomName_exits (W : World) (s : Proc)
    (base : url.URL) (req : http.Request) (cause : error) :
  url_Parse W randNameEndpoint = Ok base ->
  http_NewRequest W http.MethodGet (url.String_ base) = Ok req ->
  client_Do W req = Err cause ->
  Httpserver.getRandomName W s
  = (Exit 1,
     {| stdout := stdout s ++
          [Printf "client: error making http request: %s\n" [ArgError cause]] |}).
Proof.
  intros Hu Hr Hd. unfold Httpserver.getRandomName.
  now rewrite Hu, Hr, Hd.
Qed.

(** C3, as the claim states it, fails: a response of the name service
    with status 404, which is printed and not looked at again, and a
    body that holds a name makes getRandomName return that name and no
    error, in both programs. *)
Lemma name_is_returned_for_status_404 :
  is2xx 404 = false
  /\ Application.getRandomName world404 start
     = (Val (JohnDoe, None),
        {| stdout := [Printf "client: got response!\n" [];
                      Printf "client: status code: %d\n" [ArgInt 404]] |})
  /\ fst (Httpserver.getRandomName world404 start) = Val (JohnDoe, None).
Proof. repeat split. Qed.

(** C3, amended. getRandomName does not look at the status code of the
    response: in every world, what it returns (the name and the error,
    or the end of the process in httpserver/main.go) is what it returns
    when the response has any other status code. So a response whose
    body decodes into a name yields that name and no error, whatever
    its status code. *)
Theorem getRandomName_ignores_the_status_code :
  forall (W : World) (code : Z) (s : Proc),
    fst (Application.getRandomName (withStatus code W) s)
    = fst (Application.getRandomName W s)
    /\ fst (Httpserver.getRandomName (withStatus code W) s)
       = fst (Httpserver.getRandomName W s)
    /\ (forall (data : string) (n : Names),
          nameServiceSends W data ->
          json.Unmarshal data Names_zero = (n, None) ->
          fst (Application.getRandomName (withStatus code W) s) = Val (n, None)).
Proof.
  intros W code s.
  assert (Hsame : fst (Application.getRandomName (withStatus code W) s)
                  = fst (Application.getRandomName W s)
                  /\ fst (Httpserver.getRandomName (withStatus code W) s)
                     = fst (Httpserver.getRandomName W s));
    [|destruct Hsame as [Happ Hsrv]; repeat split; try assumption;
      intros data n Hsend Hdec; rewrite Happ;
      rewrite (application_getRandomName_read W data s Hsend);
      unfold namesOf;
      now rewrite (Unmarshal_Valid data Names_zero n Hdec), Hdec].
  unfold Application.getRandomName, Httpserver.getRandomName, withStatus.
  cbn [url_Parse http_NewRequest client_Do].
  destruct (url_Parse W randNameEndpoint) as [base|]; [|split; reflexivity].
  destruct (http_NewRequest W http.MethodGet (url.String_ base)) as [req|];
    [|split; reflexivity].
  destruct (client_Do W req) as [res|]; [|split; reflexivity].
  unfold io.ReadAll. cbn.
  destruct (http.Body res) as [data|]; [|split; reflexivity].
  destruct (json.Valid data);
    destruct (json.Unmarshal data Names_zero) as [n [err|]]; split; reflexivity.
Qed.

(** C4, as the claim states it, fails: the bodies {} and
    {"first_name":"John"} are JSON without both fields, and
    getRandomName (application/main.go) returns a name with empty
    components and no error. *)
Lemma names_without_fields_are_returned_empty :
  json.Valid "{}" = true
  /\ fst (Application.getRandomName (world (reply 200 "{}") (reply 200 joke_json))
            start)
     = Val ({| FirstName := ""; LastName := "" |}, None)
  /\ json.Valid John_json = true
  /\ fst (Application.getRandomName
            (world (reply 200 John_json) (reply 200 joke_json)) start)
     = Val ({| FirstName := "John"; LastName := "" |}, None).
Proof. repeat split. Qed.

(** C4, amended. When the body of the name service is a JSON object in
    which every member that selects first_name or last_name is a string
    or null, getRandomName (application/main.go) returns a name and no
    error, and a component for which the object has no string is empty.
    When some such member is of another kind, it returns an error. *)
Theorem getRandomName_missing_fields_are_empty :
  forall (W : World) (s : Proc) (data : string)
         (members : list (string * json.value)),
    nameServiceSends W data ->
    json.parse data = Some (json.JObject members) ->
    if namesFit members then
      exists n : Names,
        fst (Application.getRandomName W s) = Val (n, None)
        /\ (givesName 0 members = false -> FirstName n = "")
        /\ (givesName 1 members = false -> LastName n = "")
    else
      exists cause : error,
        fst (Application.getRandomName W s) = Val (Names_zero, Some cause).
Proof.
  intros W s data members Hsend Hparse.
  rewrite (application_getRandomName_read W data s Hsend).
  unfold namesOf.
  rewrite (Valid_parse data _ Hparse), (Unmarshal_Names_object data members Hparse).
  destruct (namesFit members) eqn:Hfit.
  - destruct (decodeNames_fit members Hfit Names_zero) as (n & Hd & H0 & H1).
    rewrite Hd. exists n. auto.
  - destruct (decodeNames_unfit members Hfit Names_zero None) as (n & e & Hd).
    rewrite Hd. eauto.
Qed.

Lemma getRandomName_missing_fields_are_empty_witness :
  nameServiceSends (world (reply 200 John_json) (reply 200 joke_json)) John_json
  /\ json.parse John_json
     = Some (json.JObject [("first_name", json.JString "John")])
  /\ exists n : Names,
       fst (Application.getRandomName
              (world (reply 200 John_json) (reply 200 joke_json)) start)
       = Val (n, None)
       /\ (givesName 0 [("first_name", json.JString "John")] = false ->
           FirstName n = "")
       /\ (givesName 1 [("first_name", json.JString "John")] = false ->
           LastName n = "").
Proof.
  assert (Hsend : nameServiceSends
                    (world (reply 200 John_json) (reply 200 joke_json)) John_json).
  { eexists _, _, _. repeat split. }
  split; [exact Hsend|]. split; [reflexivity|].
  exact (getRandomName_missing_fields_are_empty
           (world (reply 200 John_json) (reply 200 joke_json)) start John_json
           [("first_name", json.JString "John")] Hsend eq_refl).
Defined.

(** C9, as the claim states it, fails: the bodies [] and
    {"value":{"joke":5}} are valid JSON without a string at value.joke,
    and getRandomJoke (application/main.go) returns an error for them,
    so that the handler responds with status 500. *)
Lemma joke_of_another_kind_is_an_error :
  json.Valid "[]" = true
  /\ fst (Application.getRandomJoke worldArray "John" "Doe" start)
     = Val ("", Some (fmt.Errorf "error unmarshalling JSON: %s"
                        (ArgError (UnmarshalTypeError "array" ""))))
  /\ response (exec (Application.funcs worldArray)
                 (Application.getRoot httptest.NewRecorder GET_root) start)
     = Some (500, "failed to get joke" ++ newline)
  /\ json.Valid numberJoke_json = true
  /\ (exists cause : error,
        fst (Application.getRandomJoke worldNumber "John" "Doe" start)
        = Val ("", Some cause))
  /\ response (exec (Application.funcs worldNumber)
                 (Application.getRoot httptest.NewRecorder GET_root) start)
     = Some (500, "failed to get joke" ++ newline).
Proof.
  do 4 (split; [reflexivity|]).
  split; [eexists; reflexivity | reflexivity].
Qed.

(** ** The process *)

(** C8: httpserver/main.go ends the process when a remote call fails.
    Two requests arrive; the name service cannot be reached for the
    first. getRandomName prints the error and calls os.Exit(1): no
    response is written, and the second request is not served. For the
    same requests application/main.go answers 500 and then 200 and
    goes on. *)
Theorem httpserver_exits_when_the_name_call_fails :
  Httpserver.main [(worldDown, GET_root); (worldUp, GET_root)] start
  = ([], Exit 1,
     {| stdout := [Printf "client: error making http request: %s\n"
                     [ArgError (errorString "dial tcp: connection refused")]] |})
  /\ (let '(ws, o, _) :=
         Application.main [(worldDown, GET_root); (worldUp, GET_root)] start in
       (map http.Code ws, o) = ([500; 200], Val tt)).
Proof. split; reflexivity. Qed.


(** * Further properties of the two programs *)

(** ** Runs of the handler of httpserver/main.go *)

Section HandlerHttpserver.

Variable P : Bound.t.
Variables (w : http.ResponseWriter) (r : http.Request).
Variables (s s1 : Proc) (n : Names).

Lemma application_name_exit (code : Z) :
  Bound.getRandomName P s = (Exit code, s1) ->
  exec P (Application.getRoot w r) s =
  {| calls := [CalledName]; outcome := Exit code; final := s1 |}.
Proof. intros H. cbn. rewrite H. reflexivity. Qed.

Lemma httpserver_name_exit (code : Z) :
  Bound.getRandomName P s = (Exit code, s1) ->
  exec P (Httpserver.getRoot w r) s =
  {| calls := [CalledName]; outcome := Exit code; final := s1 |}.
Proof. intros H. cbn. rewrite H. reflexivity. Qed.

Lemma httpserver_joke_exit (code : Z) (s2 : Proc) :
  Bound.getRandomName P s = (Val (n, None), s1) ->
  Bound.getRandomJoke P (FirstName n) (LastName n) s1 = (Exit code, s2) ->
  exec P (Httpserver.getRoot w r) s =
  {| calls := [CalledName; CalledJoke (FirstName n) (LastName n)];
     outcome := Exit code;
     final := s2 |}.
Proof. intros H1 H2. cbn. rewrite H1. cbn. rewrite H2. reflexivity. Qed.

Lemma httpserver_success (j : string) (s2 : Proc) :
  Bound.getRandomName P s = (Val (n, None), s1) ->
  Bound.getRandomJoke P (FirstName n) (LastName n) s1 = (Val (j, None), s2) ->
  exec P (Httpserver.getRoot w r) s =
  {| calls := [CalledName; CalledJoke (FirstName n) (LastName n)];
     outcome := Val (Httpserver.returnCompleteJoke j w);
     final := s2 |}.
Proof. intros H1 H2. cbn. rewrite H1. cbn. rewrite H2. reflexivity. Qed.

End HandlerHttpserver.

Lemma httpserver_returnCompleteJoke_fresh (joke : string)
    (w : http.ResponseWriter) :
  fresh w = true ->
  http.Code (Httpserver.returnCompleteJoke joke w) = 200
  /\ http.Written (Httpserver.returnCompleteJoke joke w) = joke.
Proof.
  intros H. destruct (WriteString_fresh w joke H) as (w' & Hw & Hc & Hb).
  unfold Httpserver.returnCompleteJoke. rewrite Hw. now split.
Qed.

Lemma httpserver_getRandomJoke_no_error (W : World)
    (firstName lastName : string) (s : Proc) :
  (exists j s', Httpserver.getRandomJoke W firstName lastName s
                = (Val (j, None), s'))
  \/ (exists s', Httpserver.getRandomJoke W firstName lastName s = (Exit 1, s')).
Proof.
  unfold Httpserver.getRandomJoke.
  destruct (url_Parse W randJokeBaseEndpoint) as [base|];
    [|right; cbn; eexists; reflexivity].
  cbv zeta.
  destruct (http_NewRequest W http.MethodGet _) as [req|];
    [|right; cbn; eexists; reflexivity].
  destruct (client_Do W req) as [res|]; [|right; cbn; eexists; reflexivity].
  cbn. destruct (io.ReadAll (http.Body res)) as [data|];
    [|right; cbn; eexists; reflexivity].
  destruct (json.Unmarshal data Joke_zero) as [j [err|]].
  - right. cbn. eexists. reflexivity.
  - left. cbn. do 2 eexists. reflexivity.
Qed.

(** X2. getRoot of httpserver/main.go never answers with an error
    status through the program's own providers: whatever the remote
    services do, a run of the handler ends with status 200, or it ends
    the process with exit code 1 and leaves no response. The two
    branches of getRoot that answer 500 are never reached. *)
Theorem httpserver_getRoot_200_or_exit (W : World) (r : http.Request) (s : Proc) :
  (exists w', outcome (exec (Httpserver.funcs W)
                         (Httpserver.getRoot httptest.NewRecorder r) s) = Val w'
              /\ http.Code w' = 200)
  \/ outcome (exec (Httpserver.funcs W)
                (Httpserver.getRoot httptest.NewRecorder r) s) = Exit 1.
Proof.
  destruct (httpserver_getRandomName_no_error W s)
    as [(n & s1 & Hn) | (s1 & Hn)].
  - destruct (httpserver_getRandomJoke_no_error W (FirstName n) (LastName n) s1)
      as [(j & s2 & Hj) | (s2 & Hj)].
    + left.
      rewrite (httpserver_success (Httpserver.funcs W) httptest.NewRecorder r
                 s s1 n j s2 Hn Hj).
      eexists. split; [reflexivity|].
      now apply httpserver_returnCompleteJoke_fresh.
    + right.
      now rewrite (httpserver_joke_exit (Httpserver.funcs W)
                     httptest.NewRecorder r s s1 n 1 s2 Hn Hj).
  - right.
    now rewrite (httpserver_name_exit (Httpserver.funcs W)
                   httptest.NewRecorder r s s1 1 Hn).
Qed.

(** X1. getRoot of application/main.go with the program's own providers
    always returns with a response and never ends the process: whatever
    the remote services do, the response has status 200, or status 500
    and one of the two fixed bodies. *)
Theorem application_getRoot_answered (W : World) (r : http.Request) (s : Proc) :
  exists w',
    outcome (exec (Application.funcs W)
               (Application.getRoot httptest.NewRecorder r) s) = Val w'
    /\ answered w'.
Proof.
  destruct (application_getRandomName_returns W s) as ([n [cause|]] & s1 & Hn).
  - rewrite (application_name_error (Application.funcs W) httptest.NewRecorder
               r s s1 n cause Hn).
    eexists. split; [reflexivity|]. right. split; [reflexivity|]. now left.
  - destruct (application_getRandomJoke_returns W (FirstName n) (LastName n) s1)
      as ([j [cause|]] & s2 & Hj).
    + rewrite (application_joke_error (Application.funcs W) httptest.NewRecorder
                 r s s1 n j cause s2 Hn Hj).
      eexists. split; [reflexivity|]. right. split; [reflexivity|]. now right.
    + rewrite (application_success (Application.funcs W) httptest.NewRecorder
                 r s s1 n j s2 Hn Hj).
      eexists. split; [reflexivity|]. left.
      now apply returnCompleteJoke_fresh.
Qed.

(** ** What the providers return *)

(** What a provider returns does not depend on the output printed so
    far, nor on the status codes of the responses. *)
Lemma application_getRandomName_withStatus (W : World) (code : Z) (s s' : Proc) :
  fst (Application.getRandomName (withStatus code W) s)
  = fst (Application.getRandomName W s').
Proof.
  unfold Application.getRandomName, withStatus.
  cbn [url_Parse http_NewRequest client_Do].
  destruct (url_Parse W randNameEndpoint) as [base|]; [|reflexivity].
  destruct (http_NewRequest W http.MethodGet (url.String_ base)) as [req|];
    [|reflexivity].
  destruct (client_Do W req) as [res|]; [|reflexivity].
  unfold io.ReadAll. cbn.
  destruct (http.Body res) as [data|]; [|reflexivity].
  destruct (json.Valid data);
    destruct (json.Unmarshal data Names_zero) as [n [err|]]; reflexivity.
Qed.

Lemma application_getRandomJoke_withStatus (W : World) (code : Z)
    (firstName lastName : string) (s s' : Proc) :
  fst (Application.getRandomJoke (withStatus code W) firstName lastName s)
  = fst (Application.getRandomJoke W firstName lastName s').
Proof.
  unfold Application.getRandomJoke, withStatus.
  cbn [url_Parse http_NewRequest client_Do].
  destruct (url_Parse W randJokeBaseEndpoint) as [base|]; [|reflexivity].
  cbv zeta.
  destruct (http_NewRequest W http.MethodGet _) as [req|]; [|reflexivity].
  destruct (client_Do W req) as [res|]; [|reflexivity].
  unfold io.ReadAll. cbn.
  destruct (http.Body res) as [data|]; [|reflexivity].
  destruct (json.Unmarshal data Joke_zero) as [j [err|]]; reflexivity.
Qed.

(** The run of the handler is fixed by what the two calls return. *)
Lemma application_run_by_results (P P' : Bound.t) (w : http.ResponseWriter)
    (r r' : http.Request) (s s' : Proc) :
  fst (Bound.getRandomName P s) = fst (Bound.getRandomName P' s') ->
  (forall firstName lastName t t',
      fst (Bound.getRandomJoke P firstName lastName t)
      = fst (Bound.getRandomJoke P' firstName lastName t')) ->
  calls (exec P (Application.getRoot w r) s)
  = calls (exec P' (Application.getRoot w r') s')
  /\ outcome (exec P (Application.getRoot w r) s)
     = outcome (exec P' (Application.getRoot w r') s').
Proof.
  intros Hname Hjoke.
  destruct (Bound.getRandomName P s) as [o s1] eqn:H1.
  destruct (Bound.getRandomName P' s') as [o' s1'] eqn:H1'.
  cbn in Hname. subst o'.
  destruct o as [[n [cause|]]|code].
  - rewrite (application_name_error P w r s s1 n cause H1).
    rewrite (application_name_error P' w r' s' s1' n cause H1').
    now split.
  - specialize (Hjoke (FirstName n) (LastName n) s1 s1').
    destruct (Bound.getRandomJoke P (FirstName n) (LastName n) s1)
      as [o2 s2] eqn:H2.
    destruct (Bound.getRandomJoke P' (FirstName n) (LastName n) s1')
      as [o2' s2'] eqn:H2'.
    cbn in Hjoke. subst o2'.
    destruct o2 as [[j [cause|]]|code].
    + rewrite (application_joke_error P w r s s1 n j cause s2 H1 H2).
      rewrite (application_joke_error P' w r' s' s1' n j cause s2' H1' H2').
      now split.
    + rewrite (application_success P w r s s1 n j s2 H1 H2).
      rewrite (application_success P' w r' s' s1' n j s2' H1' H2').
      now split.
    + rewrite (application_joke_exit P w r s s1 n code s2 H1 H2).
      rewrite (application_joke_exit P' w r' s' s1' n code s2' H1' H2').
      now split.
  - rewrite (application_name_exit P w r s s1 code H1).
    rewrite (application_name_exit P' w r' s' s1' code H1').
    now split.
Qed.

(** X3. The status codes of the two remote services never reach the
    client of application/main.go: with the responses of both services
    given any other status code, and whatever was printed before, the
    handler makes the same calls and leaves the same response. So a
    name service and a joke service that answer 404 or 500 with bodies
    that decode still give status 200 and the joke. *)
Theorem upstream_status_codes_do_not_matter :
  forall (W : World) (code : Z) (w : http.ResponseWriter) (r : http.Request)
         (s s' : Proc),
    calls (exec (Application.funcs (withStatus code W))
             (Application.getRoot w r) s)
    = calls (exec (Application.funcs W) (Application.getRoot w r) s')
    /\ response (exec (Application.funcs (withStatus code W))
                  (Application.getRoot w r) s)
       = response (exec (Application.funcs W) (Application.getRoot w r) s').
Proof.
  intros W code w r s s'.
  destruct (application_run_by_results
              (Application.funcs (withStatus code W)) (Application.funcs W)
              w r r s s'
              (application_getRandomName_withStatus W code s s')
              (fun f l t t' => application_getRandomJoke_withStatus W code f l t t'))
    as [Hc Ho].
  split; [exact Hc|]. unfold response. now rewrite Ho.
Qed.

(** X4. An error of a provider of application/main.go comes with the
    zero value: getRandomName returns Names{} with every error, also
    when json.Unmarshal had filled a field before it failed, and
    getRandomJoke returns the empty string with every error. *)
Theorem errors_come_with_zero_values :
  forall (W : World) (firstName lastName : string) (s : Proc),
    match fst (Application.getRandomName W s) with
    | Val (n, Some _) => n = Names_zero
    | _ => True
    end
    /\ match fst (Application.getRandomJoke W firstName lastName s) with
       | Val (j, Some _) => j = ""
       | _ => True
       end.
Proof.
  intros W firstName lastName s. split.
  - unfold Application.getRandomName.
    destruct (url_Parse W randNameEndpoint) as [base|]; [|reflexivity].
    destruct (http_NewRequest W http.MethodGet (url.String_ base)) as [req|];
      [|reflexivity].
    destruct (client_Do W req) as [res|]; [|reflexivity].
    cbn. destruct (io.ReadAll (http.Body res)) as [data|]; [|reflexivity].
    destruct (json.Valid data); [|reflexivity].
    destruct (json.Unmarshal data Names_zero) as [n [err|]]; cbn; trivial.
  - unfold Application.getRandomJoke.
    destruct (url_Parse W randJokeBaseEndpoint) as [base|]; [|reflexivity].
    cbv zeta.
    destruct (http_NewRequest W http.MethodGet _) as [req|]; [|reflexivity].
    destruct (client_Do W req) as [res|]; [|reflexivity].
    cbn. destruct (io.ReadAll (http.Body res)) as [data|]; [|reflexivity].
    destruct (json.Unmarshal data Joke_zero) as [j [err|]]; cbn; trivial.
Qed.

(** X5. The providers of the two programs agree: in every world, where
    a provider of application/main.go returns a value and no error, the
    provider of httpserver/main.go returns the same value and no error,
    and where the former returns an error, the latter ends the process
    with exit code 1. This includes a body that is not JSON, which
    application/main.go tests with json.Valid and httpserver/main.go
    leaves to json.Unmarshal. *)
Theorem providers_of_the_two_programs_agree :
  forall (W : World) (firstName lastName : string) (s : Proc),
    sameOrExit (fst (Application.getRandomName W s))
               (fst (Httpserver.getRandomName W s))
    /\ sameOrExit (fst (Application.getRandomJoke W firstName lastName s))
                  (fst (Httpserver.getRandomJoke W firstName lastName s)).
Proof.
  intros W firstName lastName s. split.
  - unfold Application.getRandomName, Httpserver.getRandomName.
    destruct (url_Parse W randNameEndpoint) as [base|]; [|reflexivity].
    destruct (http_NewRequest W http.MethodGet (url.String_ base)) as [req|];
      [|reflexivity].
    destruct (client_Do W req) as [res|]; [|reflexivity].
    cbn. destruct (io.ReadAll (http.Body res)) as [data|]; [|reflexivity].
    unfold json.Valid, json.Unmarshal.
    destruct (json.parse data) as [v|]; [|reflexivity].
    destruct (json.decode v Names_zero None) as [n [err|]]; reflexivity.
  - unfold Application.getRandomJoke, Httpserver.getRandomJoke.
    destruct (url_Parse W randJokeBaseEndpoint) as [base|]; [|reflexivity].
    cbv zeta.
    destruct (http_NewRequest W http.MethodGet _) as [req|]; [|reflexivity].
    destruct (client_Do W req) as [res|]; [|reflexivity].
    cbn. destruct (io.ReadAll (http.Body res)) as [data|]; [|reflexivity].
    destruct (json.Unmarshal data Joke_zero) as [j [err|]]; reflexivity.
Qed.

(** ** The handler, whatever is bound to the two names *)

(** X6. No retries: in one run getRoot calls getRandomName exactly once,
    first, and getRandomJoke at most once, and only after a name call
    that returned without an error, with the name it returned. This
    holds for getRoot of both programs and for any functions bound to
    the two names, also ones that end the process. *)
Theorem each_provider_is_called_at_most_once :
  forall (P : Bound.t) (w : http.ResponseWriter) (r : http.Request) (s : Proc),
    let app := calls (exec P (Application.getRoot w r) s) in
    let srv := calls (exec P (Httpserver.getRoot w r) s) in
    (app = [CalledName]
     \/ exists (n : Names) (s1 : Proc),
          Bound.getRandomName P s = (Val (n, None), s1)
          /\ app = [CalledName; CalledJoke (FirstName n) (LastName n)])
    /\ srv = app.
Proof.
  intros P w r s app srv. subst app srv.
  destruct (Bound.getRandomName P s) as [[[n [cause|]]|code] s1] eqn:H1.
  - rewrite (application_name_error P w r s s1 n cause H1).
    rewrite (httpserver_name_error P w r s s1 n cause H1).
    split; [now left | reflexivity].
  - destruct (Bound.getRandomJoke P (FirstName n) (LastName n) s1)
      as [[[j [cause|]]|code] s2] eqn:H2.
    + rewrite (application_joke_error P w r s s1 n j cause s2 H1 H2).
      rewrite (httpserver_joke_error P w r s s1 n j cause s2 H1 H2).
      split; [right; now exists n, s1 | reflexivity].
    + rewrite (application_success P w r s s1 n j s2 H1 H2).
      rewrite (httpserver_success P w r s s1 n j s2 H1 H2).
      split; [right; now exists n, s1 | reflexivity].
    + rewrite (application_joke_exit P w r s s1 n code s2 H1 H2).
      rewrite (httpserver_joke_exit P w r s s1 n code s2 H1 H2).
      split; [right; now exists n, s1 | reflexivity].
  - rewrite (application_name_exit P w r s s1 code H1).
    rewrite (httpserver_name_exit P w r s s1 code H1).
    split; [now left | reflexivity].
Qed.

(** X7. No partial joke: a response of getRoot (application/main.go)
    with status 200 is written only after both calls returned without
    an error, and its body is then the string the joke call returned.
    The writer is one on which nothing was written and whose writes
    succeed. *)
Theorem status_200_only_after_both_calls_succeed :
  forall (P : Bound.t) (w : http.ResponseWriter) (r : http.Request)
         (s : Proc) (text : string),
    fresh w = true ->
    response (exec P (Application.getRoot w r) s) = Some (200, text) ->
    exists (n : Names) (s1 s2 : Proc),
      Bound.getRandomName P s = (Val (n, None), s1)
      /\ Bound.getRandomJoke P (FirstName n) (LastName n) s1
         = (Val (text, None), s2).
Proof.
  intros P w r s text Hw.
  destruct (Bound.getRandomName P s) as [[[n [cause|]]|code] s1] eqn:H1.
  - rewrite (application_name_error P w r s s1 n cause H1).
    unfold response. cbn [outcome].
    destruct (Error_fresh w "failed to get name" 500 Hw) as [-> _].
    discriminate.
  - destruct (Bound.getRandomJoke P (FirstName n) (LastName n) s1)
      as [[[j [cause|]]|code] s2] eqn:H2.
    + rewrite (application_joke_error P w r s s1 n j cause s2 H1 H2).
      unfold response. cbn [outcome].
      destruct (Error_fresh w "failed to get joke" 500 Hw) as [-> _].
      discriminate.
    + rewrite (application_success P w r s s1 n j s2 H1 H2).
      unfold response. cbn [outcome].
      destruct (returnCompleteJoke_fresh j w Hw) as [-> ->].
      intros [= <-]. now exists n, s1, s2.
    + rewrite (application_joke_exit P w r s s1 n code s2 H1 H2).
      discriminate.
  - rewrite (application_name_exit P w r s s1 code H1). discriminate.
Qed.

Lemma status_200_only_after_both_calls_succeed_witness :
  fresh httptest.NewRecorder = true
  /\ response (exec mocked (Application.getRoot httptest.NewRecorder GET_root)
                 start)
     = Some (200, "Mocked joke about John Doe")
  /\ exists (n : Names) (s1 s2 : Proc),
       Bound.getRandomName mocked start = (Val (n, None), s1)
       /\ Bound.getRandomJoke mocked (FirstName n) (LastName n) s1
          = (Val ("Mocked joke about John Doe", None), s2).
Proof.
  split; [reflexivity|]. split; [reflexivity|].
  exact (status_200_only_after_both_calls_succeed mocked httptest.NewRecorder
           GET_root start "Mocked joke about John Doe" eq_refl eq_refl).
Defined.

(** X8. The handlers of the two programs answer alike: with the same
    functions bound to the two names they give the same status code,
    and with status 200 the same body. They differ in the spelling of
    the error bodies and in what they print. *)
Theorem handlers_of_the_two_programs_agree :
  forall (P : Bound.t) (w : http.ResponseWriter) (r : http.Request) (s : Proc),
    fresh w = true ->
    let app := exec P (Application.getRoot w r) s in
    let srv := exec P (Httpserver.getRoot w r) s in
    status srv = status app
    /\ (status app = Some 200 -> body srv = body app).
Proof.
  intros P w r s Hw app srv. subst app srv. unfold status, body, response.
  destruct (Bound.getRandomName P s) as [[[n [cause|]]|code] s1] eqn:H1.
  - rewrite (application_name_error P w r s s1 n cause H1).
    rewrite (httpserver_name_error P w r s s1 n cause H1).
    cbn [outcome option_map fst snd].
    destruct (Error_fresh w "failed to get name" 500 Hw) as [-> _].
    destruct (Error_fresh w "Failed to get name" 500 Hw) as [-> _].
    split; [reflexivity | discriminate].
  - destruct (Bound.getRandomJoke P (FirstName n) (LastName n) s1)
      as [[[j [cause|]]|code] s2] eqn:H2.
    + rewrite (application_joke_error P w r s s1 n j cause s2 H1 H2).
      rewrite (httpserver_joke_error P w r s s1 n j cause s2 H1 H2).
      cbn [outcome option_map fst snd].
      destruct (Error_fresh w "failed to get joke" 500 Hw) as [-> _].
      destruct (Error_fresh w "Failed to get joke" 500 Hw) as [-> _].
      split; [reflexivity | discriminate].
    + rewrite (application_success P w r s s1 n j s2 H1 H2).
      rewrite (httpserver_success P w r s s1 n j s2 H1 H2).
      cbn [outcome option_map fst snd].
      destruct (returnCompleteJoke_fresh j w Hw) as [-> ->].
      destruct (httpserver_returnCompleteJoke_fresh j w Hw) as [-> ->].
      now split.
    + rewrite (application_joke_exit P w r s s1 n code s2 H1 H2).
      rewrite (httpserver_joke_exit P w r s s1 n code s2 H1 H2).
      split; [reflexivity | discriminate].
  - rewrite (application_name_exit P w r s s1 code H1).
    rewrite (httpserver_name_exit P w r s s1 code H1).
    split; [reflexivity | discriminate].
Qed.

Lemma handlers_of_the_two_programs_agree_witness :
  fresh httptest.NewRecorder = true
  /\ status (exec mockedJokeFailure
               (Httpserver.getRoot httptest.NewRecorder GET_root) start)
     = status (exec mockedJokeFailure
                 (Application.getRoot httptest.NewRecorder GET_root) start)
  /\ (status (exec mockedJokeFailure
                (Application.getRoot httptest.NewRecorder GET_root) start)
      = Some 200 ->
      body (exec mockedJokeFailure
              (Httpserver.getRoot httptest.NewRecorder GET_root) start)
      = body (exec mockedJokeFailure
                (Application.getRoot httptest.NewRecorder GET_root) start)).
Proof.
  split; [reflexivity|].
  exact (handlers_of_the_two_programs_agree mockedJokeFailure
           httptest.NewRecorder GET_root start eq_refl).
Defined.

(** ** Which bodies decode *)

Lemma decodeMembers_fit {T} (names : list string)
    (fieldDecoder : nat -> json.decoder T)
    (good : string * json.value -> bool) :
  (forall i key v cur,
      json.field names key = Some i -> good (key, v) = true ->
      snd (fieldDecoder i v cur None) = None) ->
  forall members,
    membersFit names good members = true ->
    forall cur,
      snd (json.decodeMembers names fieldDecoder members cur None) = None.
Proof.
  intros Hgood members.
  induction members as [|[key v] rest IH]; intros Hfit cur.
  - reflexivity.
  - cbn [membersFit forallb fst] in Hfit.
    apply andb_prop in Hfit as [Hkv Hrest].
    cbn [json.decodeMembers].
    destruct (json.field names key) as [i|] eqn:Hfield.
    + specialize (Hgood i key v cur Hfield Hkv).
      destruct (fieldDecoder i v cur None) as [cur' saved'].
      cbn in Hgood. subst saved'. now apply IH.
    + now apply IH.
Qed.

Lemma decodeMembers_unfit {T} (names : list string)
    (fieldDecoder : nat -> json.decoder T)
    (good : string * json.value -> bool) :
  (forall i v cur e, snd (fieldDecoder i v cur (Some e)) = Some e) ->
  (forall i key v cur saved,
      json.field names key = Some i -> good (key, v) = false ->
      exists e, snd (fieldDecoder i v cur saved) = Some e) ->
  forall members,
    membersFit names good members = false ->
    forall cur saved,
    exists e,
      snd (json.decodeMembers names fieldDecoder members cur saved) = Some e.
Proof.
  intros Hstays Hbad members.
  induction members as [|[key v] rest IH]; intros Hfit cur saved.
  - discriminate.
  - cbn [membersFit forallb fst] in Hfit.
    cbn [json.decodeMembers].
    destruct (json.field names key) as [i|] eqn:Hfield.
    + destruct (good (key, v)) eqn:Hkv.
      * destruct (fieldDecoder i v cur saved) as [cur' saved'].
        now apply IH.
      * destruct (Hbad i key v cur saved Hfield Hkv) as [e He].
        destruct (fieldDecoder i v cur saved) as [cur' saved'].
        cbn in He. subst saved'. exists e.
        now apply saved_error_stays.
    + now apply IH.
Qed.

Lemma decodeJokeValueField_saved (i : nat) (v : json.value) (cur : JokeValue)
    (e : error) :
  snd (decodeJokeValueField i v cur (Some e)) = Some e.
Proof.
  unfold decodeJokeValueField.
  pose proof (decodeString_saved "value.joke" v (Joke_ cur) e) as H.
  destruct (json.decodeString "value.joke" v (Joke_ cur) (Some e)). exact H.
Qed.

Lemma decodeJokeField_saved (i : nat) (v : json.value) (cur : Joke)
    (e : error) :
  snd (decodeJokeField i v cur (Some e)) = Some e.
Proof.
  unfold decodeJokeField, json.decodeStruct.
  destruct v as [|b|lit|str|elems|inner]; try reflexivity.
  pose proof (saved_error_stays ["joke"] decodeJokeValueField
                decodeJokeValueField_saved inner (Value cur) e) as H.
  destruct (json.decodeMembers ["joke"] decodeJokeValueField inner (Value cur)
              (Some e)).
  exact H.
Qed.

Lemma decodeJokeValueField_fit (i : nat) (key : string) (v : json.value)
    (cur : JokeValue) :
  stringOrNull (key, v) = true ->
  snd (decodeJokeValueField i v cur None) = None.
Proof. now destruct v. Qed.

Lemma decodeJokeValueField_unfit (i : nat) (key : string) (v : json.value)
    (cur : JokeValue) (saved : option error) :
  stringOrNull (key, v) = false ->
  exists e, snd (decodeJokeValueField i v cur saved) = Some e.
Proof. destruct v, saved; try discriminate; cbn; eauto. Qed.

Lemma decodeJokeField_fit (i : nat) (key : string) (v : json.value)
    (cur : Joke) :
  jokeValueFits (key, v) = true ->
  snd (decodeJokeField i v cur None) = None.
Proof.
  unfold jokeValueFits, decodeJokeField, json.decodeStruct. cbn [snd].
  destruct v as [|b|lit|str|elems|inner]; try discriminate; [reflexivity|].
  intros Hfit.
  pose proof (decodeMembers_fit ["joke"] decodeJokeValueField stringOrNull
                (fun i key v cur _ => decodeJokeValueField_fit i key v cur)
                inner Hfit (Value cur)) as H.
  destruct (json.decodeMembers ["joke"] decodeJokeValueField inner (Value cur)
              None).
  exact H.
Qed.

Lemma decodeJokeField_unfit (i : nat) (key : string) (v : json.value)
    (cur : Joke) (saved : option error) :
  jokeValueFits (key, v) = false ->
  exists e, snd (decodeJokeField i v cur saved) = Some e.
Proof.
  unfold jokeValueFits, decodeJokeField, json.decodeStruct. cbn [snd].
  destruct v as [|b|lit|str|elems|inner]; try discriminate;
    try (destruct saved; cbn; eauto; fail).
  intros Hfit.
  destruct (decodeMembers_unfit ["joke"] decodeJokeValueField stringOrNull
              decodeJokeValueField_saved
              (fun i key v cur saved _ =>
                 decodeJokeValueField_unfit i key v cur saved)
              inner Hfit (Value cur) saved) as [e He].
  destruct (json.decodeMembers ["joke"] decodeJokeValueField inner (Value cur)
              saved).
  cbn in He. subst. cbn. eauto.
Qed.

Lemma decodeNames_top (v : json.value) :
  match v with
  | json.JNull => json.decode v Names_zero None = (Names_zero, None)
  | json.JObject _ => True
  | _ => exists e, json.decode v Names_zero None = (Names_zero, Some e)
  end.
Proof. destruct v; cbn; eauto. Qed.

Lemma decodeNames_object (members : list (string * json.value)) :
  json.decode (json.JObject members) Names_zero None
  = json.decodeMembers NamesFields decodeNamesField members Names_zero None.
Proof. reflexivity. Qed.

Lemma decodeJoke_object (members : list (string * json.value)) :
  if membersFit ["value"] jokeValueFits members
  then exists j, json.decode (json.JObject members) Joke_zero None = (j, None)
  else exists j e,
         json.decode (json.JObject members) Joke_zero None = (j, Some e).
Proof.
  cbn [json.decode Target_Joke json.decodeStruct].
  destruct (membersFit ["value"] jokeValueFits members) eqn:Hfit.
  - pose proof (decodeMembers_fit ["value"] decodeJokeField jokeValueFits
                  (fun i key v cur _ => decodeJokeField_fit i key v cur)
                  members Hfit Joke_zero) as H.
    destruct (json.decodeMembers ["value"] decodeJokeField members Joke_zero None)
      as [j saved].
    cbn in H. subst saved. now exists j.
  - destruct (decodeMembers_unfit ["value"] decodeJokeField jokeValueFits
                decodeJokeField_saved
                (fun i key v cur saved _ => decodeJokeField_unfit i key v cur saved)
                members Hfit Joke_zero None) as [e He].
    destruct (json.decodeMembers ["value"] decodeJokeField members Joke_zero None)
      as [j saved].
    cbn in He. subst saved. now exists j, e.
Qed.

(** X9. The bodies getRandomName (application/main.go) takes for a name
    are exactly JSON null and the JSON objects in which every member
    that selects first_name or last_name is a string or null. For any
    other body that was read (text that is not JSON, a JSON array,
    string, number or boolean, an object with a name of another kind) it
    returns Names{} and an error, and the handler then answers with
    status 500 and the name message without calling getRandomJoke. *)
Theorem getRandomName_accepts_null_and_fitting_objects :
  forall (W : World) (w : http.ResponseWriter) (r : http.Request) (s : Proc)
         (data : string),
    nameServiceSends W data ->
    fresh w = true ->
    if namesAccepted data then
      exists n : Names, fst (Application.getRandomName W s) = Val (n, None)
    else
      (exists cause : error,
          fst (Application.getRandomName W s) = Val (Names_zero, Some cause))
      /\ calls (exec (Application.funcs W) (Application.getRoot w r) s)
         = [CalledName]
      /\ response (exec (Application.funcs W) (Application.getRoot w r) s)
         = Some (500, failedToGetName).
Proof.
  intros W w r s data Hsend Hw.
  pose proof (application_getRandomName_read W data s Hsend) as Hread.
  assert (Hcases :
            if namesAccepted data
            then exists n, namesOf data = (n, None)
            else exists cause, namesOf data = (Names_zero, Some cause)).
  { unfold namesAccepted, namesOf, json.Valid, json.Unmarshal.
    destruct (json.parse data) as [v|]; [|eauto].
    pose proof (decodeNames_top v) as Htop.
    destruct v as [|b|lit|str|elems|members].
    1: rewrite Htop; eauto.
    1-4: destruct Htop as [e He]; rewrite He; eauto.
    rewrite decodeNames_object.
    destruct (namesFit members) eqn:Hfit.
    - destruct (decodeNames_fit members Hfit Names_zero) as (n & -> & _).
      eauto.
    - destruct (decodeNames_unfit members Hfit Names_zero None)
        as (n & e & ->).
      eauto. }
  destruct (namesAccepted data).
  - destruct Hcases as [n Hn]. exists n. now rewrite Hread, Hn.
  - destruct Hcases as [cause Hc]. rewrite Hc in Hread.
    split; [now exists cause|].
    destruct (Application.getRandomName W s) as [o s1] eqn:Hrun.
    cbn in Hread. subst o.
    rewrite (application_name_error (Application.funcs W) w r s s1 Names_zero
               cause Hrun).
    split; [reflexivity|]. unfold response. cbn [outcome].
    now destruct (Error_fresh w "failed to get name" 500 Hw) as [-> ->].
Qed.

Lemma getRandomName_accepts_null_and_fitting_objects_witness :
  nameServiceSends (world (reply 200 JohnFive_json) (reply 200 joke_json))
                   JohnFive_json
  /\ fresh httptest.NewRecorder = true
  /\ namesAccepted JohnFive_json = false
  /\ (exists cause : error,
         fst (Application.getRandomName
                (world (reply 200 JohnFive_json) (reply 200 joke_json)) start)
         = Val (Names_zero, Some cause))
  /\ calls (exec (Application.funcs
                    (world (reply 200 JohnFive_json) (reply 200 joke_json)))
              (Application.getRoot httptest.NewRecorder GET_root) start)
     = [CalledName]
  /\ response (exec (Application.funcs
                       (world (reply 200 JohnFive_json) (reply 200 joke_json)))
                 (Application.getRoot httptest.NewRecorder GET_root) start)
     = Some (500, failedToGetName).
Proof.
  assert (Hsend : nameServiceSends
                    (world (reply 200 JohnFive_json) (reply 200 joke_json))
                    JohnFive_json).
  { eexists _, _, _. repeat split. }
  split; [exact Hsend|]. split; [reflexivity|]. split; [reflexivity|].
  exact (getRandomName_accepts_null_and_fitting_objects
           (world (reply 200 JohnFive_json) (reply 200 joke_json))
           httptest.NewRecorder GET_root start JohnFive_json Hsend eq_refl).
Defined.

(** X10. The bodies getRandomJoke (application/main.go) takes for a
    joke are exactly JSON null and the JSON objects in which every
    member that selects "value" is null or an object whose members that
    select "joke" are strings or null. For any other body that was read
    it returns the empty string and an error. There is no json.Valid
    test here: text that is not JSON fails in json.Unmarshal. *)
Theorem getRandomJoke_accepts_null_and_fitting_objects :
  forall (W : World) (firstName lastName : string) (s : Proc) (data : string),
    jokeServiceSends W firstName lastName data ->
    if jokeAccepted data then
      exists j : string,
        fst (Application.getRandomJoke W firstName lastName s) = Val (j, None)
    else
      exists cause : error,
        fst (Application.getRandomJoke W firstName lastName s)
        = Val ("", Some cause).
Proof.
  intros W firstName lastName s data Hsend.
  rewrite (application_getRandomJoke_read W firstName lastName data s Hsend).
  unfold jokeAccepted, jokeOf, json.Unmarshal.
  destruct (json.parse data) as [v|]; [|eauto].
  destruct v as [|b|lit|str|elems|members]; try (cbn; eauto; fail).
  pose proof (decodeJoke_object members) as Hobj.
  destruct (membersFit ["value"] jokeValueFits members).
  - destruct Hobj as [j ->]. eauto.
  - destruct Hobj as (j & e & ->). eauto.
Qed.

Lemma getRandomJoke_accepts_null_and_fitting_objects_witness :
  jokeServiceSends worldNumber "John" "Doe" numberJoke_json
  /\ jokeAccepted numberJoke_json = false
  /\ exists cause : error,
       fst (Application.getRandomJoke worldNumber "John" "Doe" start)
       = Val ("", Some cause).
Proof.
  assert (Hsend : jokeServiceSends worldNumber "John" "Doe" numberJoke_json).
  { eexists _, _, _. repeat split. }
  split; [exact Hsend|]. split; [reflexivity|].
  exact (getRandomJoke_accepts_null_and_fitting_objects worldNumber
           "John" "Doe" start numberJoke_json Hsend).
Defined.

(** ** The query of the joke request *)

Lemma QueryEscape_cons (c : ascii) (rest : string) :
  url.QueryEscape (String c rest)
  = if url.unreserved c then String c (url.QueryEscape rest)
    else if (json.byte c =? 32)%N then String "+" (url.QueryEscape rest)
    else String "%" (String (url.upperhex (json.byte c / 16))
                       (String (url.upperhex (json.byte c mod 16))
                          (url.QueryEscape rest))).
Proof. reflexivity. Qed.

(** The two hexadecimal digits of a byte give the byte back. *)
Lemma upperhex_byte (c : ascii) :
  json.char (json.hexVal (url.upperhex (json.byte c / 16)) * 16
             + json.hexVal (url.upperhex (json.byte c mod 16))) = c.
Proof. destruct c as [[] [] [] [] [] [] [] []]; reflexivity. Qed.

Lemma upperhex_unreserved (c : ascii) :
  url.unreserved (url.upperhex (json.byte c / 16)) = true
  /\ url.unreserved (url.upperhex (json.byte c mod 16)) = true.
Proof. destruct c as [[] [] [] [] [] [] [] []]; split; reflexivity. Qed.

Lemma space_byte (c : ascii) : (json.byte c =? 32)%N = true -> c = " "%char.
Proof.
  intros H. apply N.eqb_eq in H. unfold json.byte in H.
  rewrite <- (ascii_N_embedding c), H. reflexivity.
Qed.

Lemma Encode_names (firstName lastName : string) :
  url.Encode (url.Add "lastName" lastName (url.Add "firstName" firstName []))
  = "firstName=" ++ url.QueryEscape firstName
    ++ "&lastName=" ++ url.QueryEscape lastName.
Proof.
  unfold url.Encode. cbn. reflexivity.
Qed.

(** X11. url.QueryEscape, with which getRandomJoke puts the two names
    into the query, produces only letters, digits and the bytes
    - _ . ~ + and %: whatever the names are, no &, =, ?, #, space or
    byte outside ASCII of a name reaches the query, so a name cannot add
    a parameter or end the query. *)
Theorem QueryEscape_leaves_no_separator :
  forall s : string,
    forallb queryByte (list_ascii_of_string (url.QueryEscape s)) = true.
Proof.
  induction s as [|c rest IH]; [reflexivity|].
  rewrite QueryEscape_cons.
  destruct (url.unreserved c) eqn:Hc.
  - cbn [list_ascii_of_string forallb]. unfold queryByte at 1.
    now rewrite Hc, IH.
  - destruct (json.byte c =? 32)%N.
    + cbn [list_ascii_of_string forallb]. now rewrite IH.
    + destruct (upperhex_unreserved c) as [Hhi Hlo].
      cbn [list_ascii_of_string forallb]. unfold queryByte at 2 3.
      now rewrite Hhi, Hlo, IH.
Qed.

(** Escaped text followed by "&" determines the text and what follows. *)
Lemma QueryEscape_then_ampersand (f : string) :
  forall (f' t t' : string),
    url.QueryEscape f ++ String "&" t = url.QueryEscape f' ++ String "&" t' ->
    f = f' /\ t = t'.
Proof.
  induction f as [|c rest IH]; intros [|c' rest'] t t' H.
  - cbn in H. injection H as ->. now split.
  - exfalso. rewrite QueryEscape_cons in H.
    destruct (url.unreserved c') eqn:Hc'.
    + cbn in H. injection H as <- _. discriminate Hc'.
    + destruct (json.byte c' =? 32)%N; cbn in H; discriminate H.
  - exfalso. rewrite QueryEscape_cons in H.
    destruct (url.unreserved c) eqn:Hc.
    + cbn in H. injection H as -> _. discriminate Hc.
    + destruct (json.byte c =? 32)%N; cbn in H; discriminate H.
  - rewrite !QueryEscape_cons in H.
    destruct (url.unreserved c) eqn:Hc; destruct (url.unreserved c') eqn:Hc'.
    + cbn in H. injection H as -> H.
      destruct (IH rest' t t' H) as [-> ->]. now split.
    + destruct (json.byte c' =? 32)%N; cbn in H; injection H as -> _;
        discriminate Hc.
    + destruct (json.byte c =? 32)%N; cbn in H; injection H as <- _;
        discriminate Hc'.
    + destruct (json.byte c =? 32)%N eqn:Hs;
        destruct (json.byte c' =? 32)%N eqn:Hs';
        cbn in H; try discriminate H.
      * injection H as H.
        rewrite (space_byte c Hs), (space_byte c' Hs').
        destruct (IH rest' t t' H) as [-> ->]. now split.
      * injection H as Hhi Hlo H.
        assert (c = c') as ->.
        { rewrite <- (upperhex_byte c), <- (upperhex_byte c').
          now rewrite Hhi, Hlo. }
        destruct (IH rest' t t' H) as [-> ->]. now split.
Qed.

(** X12. The query getRandomJoke builds determines the two names:
    different pairs of names give different queries, so the joke service
    is asked about exactly the name that was passed in. *)
Theorem query_determines_the_names :
  forall (firstName lastName firstName' lastName' : string),
    url.Encode (url.Add "lastName" lastName (url.Add "firstName" firstName []))
    = url.Encode (url.Add "lastName" lastName'
                    (url.Add "firstName" firstName' [])) ->
    firstName = firstName' /\ lastName = lastName'.
Proof.
  intros f l f' l' H. rewrite !Encode_names in H.
  cbn in H. injection H as H.
  destruct (QueryEscape_then_ampersand f f' _ _ H) as [-> Hl].
  split; [reflexivity|].
  cbn in Hl. injection Hl as Hl.
  assert (Hl' : url.QueryEscape l ++ String "&" ""
                = url.QueryEscape l' ++ String "&" "") by now rewrite Hl.
  now destruct (QueryEscape_then_ampersand l l' _ _ Hl').
Qed.

Lemma query_determines_the_names_witness :
  url.Encode (url.Add "lastName" "O'Neil & Co" (url.Add "firstName" "Zoe" []))
  = "firstName=Zoe&lastName=O%27Neil+%26+Co"
  /\ ("Zoe" = "Zoe" /\ "O'Neil & Co" = "O'Neil & Co").
Proof.
  split; [reflexivity|].
  exact (query_determines_the_names "Zoe" "O'Neil & Co" "Zoe" "O'Neil & Co"
           eq_refl).
Defined.

(** X13. getRandomJoke (application/main.go) makes one GET request, to
    the base endpoint before its query followed by
    ?firstName=<escaped first name>&lastName=<escaped last name>. The
    query of the base endpoint itself (limitTo=nerdy) is replaced and is
    no part of the request. When the world answers that request with a
    body, getRandomJoke returns what the body decodes to. *)
Theorem joke_request_carries_only_the_two_names :
  forall (W : World) (firstName lastName : string) (s : Proc)
         (base : url.URL) (req : http.Request) (res : http.Response)
         (data : string),
    url_Parse W randJokeBaseEndpoint = Ok base ->
    http_NewRequest W http.MethodGet (jokeURL base firstName lastName) = Ok req ->
    client_Do W req = Ok res ->
    http.Body res = Ok data ->
    fst (Application.getRandomJoke W firstName lastName s) = Val (jokeOf data).
Proof.
  intros W f l s base req res data Hu Hr Hd Hb.
  apply application_getRandomJoke_read.
  exists base, req, res. repeat split; assumption.
Qed.

Lemma joke_request_carries_only_the_two_names_witness :
  url_Parse worldUp randJokeBaseEndpoint
  = Ok {| url.Base := "http://joke.loc8u.com:8888/joke";
          url.RawQuery := "limitTo=nerdy" |}
  /\ jokeURL {| url.Base := "http://joke.loc8u.com:8888/joke";
               url.RawQuery := "limitTo=nerdy" |} "John" "Mc Doe"
     = "http://joke.loc8u.com:8888/joke?firstName=John&lastName=Mc+Doe"
  /\ fst (Application.getRandomJoke worldUp "John" "Mc Doe" start)
     = Val ("John Doe counts in binary.", None).
Proof.
  split; [reflexivity|]. split; [reflexivity|].
  exact (joke_request_carries_only_the_two_names worldUp "John" "Mc Doe" start
           _ _ _ joke_json eq_refl eq_refl eq_refl eq_refl).
Defined.

(** ** Requests are independent *)

Lemma application_getRandomName_state (W : World) (s s' : Proc) :
  fst (Application.getRandomName W s) = fst (Application.getRandomName W s').
Proof.
  unfold Application.getRandomName.
  destruct (url_Parse W randNameEndpoint) as [base|]; [|reflexivity].
  destruct (http_NewRequest W http.MethodGet (url.String_ base)) as [req|];
    [|reflexivity].
  destruct (client_Do W req) as [res|]; [|reflexivity].
  cbn. destruct (io.ReadAll (http.Body res)) as [data|]; [|reflexivity].
  destruct (json.Valid data);
    destruct (json.Unmarshal data Names_zero) as [n [err|]]; reflexivity.
Qed.

Lemma application_getRandomJoke_state (W : World)
    (firstName lastName : string) (s s' : Proc) :
  fst (Application.getRandomJoke W firstName lastName s)
  = fst (Application.getRandomJoke W firstName lastName s').
Proof.
  unfold Application.getRandomJoke.
  destruct (url_Parse W randJokeBaseEndpoint) as [base|]; [|reflexivity].
  cbv zeta.
  destruct (http_NewRequest W http.MethodGet _) as [req|]; [|reflexivity].
  destruct (client_Do W req) as [res|]; [|reflexivity].
  cbn. destruct (io.ReadAll (http.Body res)) as [data|]; [|reflexivity].
  destruct (json.Unmarshal data Joke_zero) as [j [err|]]; reflexivity.
Qed.

(** X14. getRoot of application/main.go keeps nothing from one request
    to the next: with the program's own providers, the calls it makes
    and the status and body it leaves are the same for any two requests
    and any two states of the process, so they do not depend on what
    was printed while earlier requests were handled, only on what the
    remote services answer. *)
Theorem getRoot_keeps_nothing_between_requests :
  forall (W : World) (w : http.ResponseWriter) (r r' : http.Request)
         (s s' : Proc),
    calls (exec (Application.funcs W) (Application.getRoot w r) s)
    = calls (exec (Application.funcs W) (Application.getRoot w r') s')
    /\ response (exec (Application.funcs W) (Application.getRoot w r) s)
       = response (exec (Application.funcs W) (Application.getRoot w r') s').
Proof.
  intros W w r r' s s'.
  destruct (application_run_by_results (Application.funcs W)
              (Application.funcs W) w r r' s s'
              (application_getRandomName_state W s s')
              (fun f l t t' => application_getRandomJoke_state W f l t t'))
    as [Hc Ho].
  split; [exact Hc|]. unfold response. now rewrite Ho.
Qed.

(** ** What is printed *)

(** A provider of application/main.go prints nothing, or the two lines
    about the response it received. *)
Lemma application_getRandomName_prints (W : World) (s : Proc) :
  exists out,
    stdout (snd (Application.getRandomName W s)) = (stdout s ++ out)%list
    /\ forallb isStatusLog out = true.
Proof.
  unfold Application.getRandomName.
  destruct (url_Parse W randNameEndpoint) as [base|];
    [|exists []; cbn; now rewrite app_nil_r].
  destruct (http_NewRequest W http.MethodGet (url.String_ base)) as [req|];
    [|exists []; cbn; now rewrite app_nil_r].
  destruct (client_Do W req) as [res|];
    [|exists []; cbn; now rewrite app_nil_r].
  exists [Printf "client: got response!\n" [];
          Printf "client: status code: %d\n" [ArgInt (http.StatusCode res)]].
  split; [|reflexivity].
  cbn. destruct (io.ReadAll (http.Body res)) as [data|];
    [|cbn; now rewrite <- app_assoc].
  destruct (json.Valid data);
    destruct (json.Unmarshal data Names_zero) as [n [err|]];
    cbn; now rewrite <- app_assoc.
Qed.

Lemma application_getRandomJoke_prints (W : World)
    (firstName lastName : string) (s : Proc) :
  exists out,
    stdout (snd (Application.getRandomJoke W firstName lastName s))
    = (stdout s ++ out)%list
    /\ forallb isStatusLog out = true.
Proof.
  unfold Application.getRandomJoke.
  destruct (url_Parse W randJokeBaseEndpoint) as [base|];
    [|exists []; cbn; now rewrite app_nil_r].
  cbv zeta.
  destruct (http_NewRequest W http.MethodGet _) as [req|];
    [|exists []; cbn; now rewrite app_nil_r].
  destruct (client_Do W req) as [res|];
    [|exists []; cbn; now rewrite app_nil_r].
  exists [Printf "client: got response!\n" [];
          Printf "client: status code: %d\n" [ArgInt (http.StatusCode res)]].
  split; [|reflexivity].
  cbn. destruct (io.ReadAll (http.Body res)) as [data|];
    [|cbn; now rewrite <- app_assoc].
  destruct (json.Unmarshal data Joke_zero) as [j [err|]];
    cbn; now rewrite <- app_assoc.
Qed.

(** X15. application/main.go never prints the cause of a failure: while
    a request is handled, whatever the remote services do, the only
    lines added to the standard output are "client: got response!" and
    "client: status code: ..." for each response received. The error a
    provider returns is wrapped by getRoot and then dropped. *)
Theorem application_prints_no_error :
  forall (W : World) (w : http.ResponseWriter) (r : http.Request) (s : Proc),
  exists out : list output,
    stdout (final (exec (Application.funcs W) (Application.getRoot w r) s))
    = (stdout s ++ out)%list
    /\ forallb isStatusLog out = true
    /\ forallb (fun o => negb (printsError o)) out = true.
Proof.
  intros W w r s.
  assert (Hno : forall out, forallb isStatusLog out = true ->
                            forallb (fun o => negb (printsError o)) out = true).
  { intros out. induction out as [|o out IH]; [reflexivity|].
    cbn [forallb]. intros H. apply andb_prop in H as [Ho Hout].
    rewrite (IH Hout), andb_true_r.
    destruct o as [format [|[e|str|z] [|a args]]|args]; try discriminate Ho;
      reflexivity. }
  assert (Hout : exists out,
             stdout (final (exec (Application.funcs W)
                              (Application.getRoot w r) s))
             = (stdout s ++ out)%list
             /\ forallb isStatusLog out = true).
  { destruct (application_getRandomName_prints W s) as (out1 & H1 & Hlog1).
    destruct (Application.getRandomName W s) as [[[n [cause|]]|code] s1] eqn:Hn;
      cbn [snd] in H1.
    - rewrite (application_name_error (Application.funcs W) w r s s1 n cause Hn).
      now exists out1.
    - destruct (application_getRandomJoke_prints W (FirstName n) (LastName n) s1)
        as (out2 & H2 & Hlog2).
      exists (out1 ++ out2)%list.
      rewrite forallb_app, Hlog1, Hlog2, app_assoc, <- H1.
      split; [|reflexivity].
      destruct (Application.getRandomJoke W (FirstName n) (LastName n) s1)
        as [[[j [cause|]]|code] s2] eqn:Hj; cbn [snd] in H2.
      + now rewrite (application_joke_error (Application.funcs W) w r s s1 n j
                       cause s2 Hn Hj).
      + now rewrite (application_success (Application.funcs W) w r s s1 n j
                       s2 Hn Hj).
      + now rewrite (application_joke_exit (Application.funcs W) w r s s1 n
                       code s2 Hn Hj).
    - rewrite (application_name_exit (Application.funcs W) w r s s1 code Hn).
      now exists out1. }
  destruct Hout as (out & Hs & Hlog).
  exists out. repeat split; auto.
Qed.




(** ** Bodies without a joke *)

(** Without a string for "joke", members that are not all null do not
    fit. *)
Lemma no_joke_string_unfit (inner : list (string * json.value)) :
  givesJoke inner = false ->
  noJokeString inner = false ->
  membersFit ["joke"] stringOrNull inner = false.
Proof.
  induction inner as [|[key v] rest IH]; intros Hgives Hnull.
  - discriminate.
  - cbn [givesJoke existsb fst snd] in Hgives.
    cbn [noJokeString forallb fst snd] in Hnull.
    cbn [membersFit forallb fst].
    destruct (json.field ["joke"] key) as [i|].
    + apply orb_false_elim in Hgives as [Hstr Hrest].
      unfold stringOrNull. cbn [snd]. rewrite Hstr. cbn [orb].
      destruct (isNull v); [|reflexivity].
      cbn [andb] in Hnull |- *. now apply IH.
    + now apply IH.
Qed.

Lemma no_joke_string_object_unfit (members : list (string * json.value)) :
  hasJokeString (json.JObject members) = false ->
  lacksJoke (json.JObject members) = false ->
  membersFit ["value"] jokeValueFits members = false.
Proof.
  induction members as [|[key v] rest IH]; intros Hhas Hlacks.
  - discriminate.
  - cbn [hasJokeString existsb fst snd] in Hhas.
    cbn [lacksJoke forallb fst snd] in Hlacks.
    cbn [membersFit forallb fst].
    destruct (json.field ["value"] key) as [i|].
    + apply orb_false_elim in Hhas as [Hhead Hrest].
      unfold jokeValueFits at 1. cbn [snd].
      destruct v as [|b|lit|str|elems|inner]; try reflexivity.
      * cbn [andb] in Hlacks |- *. now apply IH.
      * destruct (noJokeString inner) eqn:Hnull.
        -- cbn [andb] in Hlacks. pose proof (IH Hrest Hlacks) as Hfit.
           unfold membersFit in Hfit at 1. rewrite Hfit.
           apply andb_false_r.
        -- now rewrite (no_joke_string_unfit inner Hhead Hnull).
    + now apply IH.
Qed.

(** A valid body without a string at value.joke lacks the joke, or does
    not fit. *)
Lemma no_joke_string_unfit_value (v : json.value) :
  hasJokeString v = false -> lacksJoke v = false -> jokeFits v = false.
Proof.
  destruct v as [|b|lit|str|elems|members]; try reflexivity.
  - discriminate.
  - apply no_joke_string_object_unfit.
Qed.

Lemma decodeJoke_unfit (v : json.value) :
  jokeFits v = false ->
  exists j e, json.decode v Joke_zero None = (j, Some e).
Proof.
  destruct v as [|b|lit|str|elems|members]; try discriminate;
    try (intros _; cbn; eauto; fail).
  intros Hfit. pose proof (decodeJoke_object members) as H.
  cbn [jokeFits] in Hfit. now rewrite Hfit in H.
Qed.

(** C9, amended. Take a body of the joke service that is valid JSON and
    has no string at value.joke. When it is JSON null, or an object in
    which every member that selects "value" is null or an object whose
    members that select "joke" are null (in particular when these
    members are absent), getRandomJoke (application/main.go) returns
    the empty string and no error, and the handler, after a name call
    without error, responds with status 200 and an empty body. In
    every other case (a top-level array, string, number or boolean, a
    "value" that is neither null nor an object, a "joke" that is
    neither a string nor null) getRandomJoke returns the empty string
    and an error, and the handler responds with status 500 and the
    joke message. *)
Theorem body_without_joke_string_gives_200_or_500 :
  forall (P : Bound.t) (W : World) (w : http.ResponseWriter) (r : http.Request)
         (s s1 : Proc) (n : Names) (data : string) (v : json.value),
    Bound.getRandomName P s = (Val (n, None), s1) ->
    Bound.getRandomJoke P = Application.getRandomJoke W ->
    jokeServiceSends W (FirstName n) (LastName n) data ->
    json.parse data = Some v ->
    hasJokeString v = false ->
    fresh w = true ->
    if lacksJoke v then
      fst (Application.getRandomJoke W (FirstName n) (LastName n) s1)
      = Val ("", None)
      /\ response (exec P (Application.getRoot w r) s) = Some (200, "")
    else
      (exists cause : error,
          fst (Application.getRandomJoke W (FirstName n) (LastName n) s1)
          = Val ("", Some cause))
      /\ response (exec P (Application.getRoot w r) s)
         = Some (500, "failed to get joke" ++ newline).
Proof.
  intros P W w r s s1 n data v Hname Hbound Hsend Hparse Hhas Hw.
  pose proof (application_getRandomJoke_read W _ _ data s1 Hsend) as Hread.
  destruct (Application.getRandomJoke W (FirstName n) (LastName n) s1)
    as [o s2] eqn:Hrun.
  cbn [fst] in Hread |- *.
  assert (Hcall : Bound.getRandomJoke P (FirstName n) (LastName n) s1 = (o, s2))
    by now rewrite Hbound.
  destruct (lacksJoke v) eqn:Hlacks.
  - destruct (Unmarshal_lacksJoke data v Hparse Hlacks) as (j & Hu & Hj).
    unfold jokeOf in Hread. rewrite Hu, Hj in Hread. subst o.
    split; [reflexivity|].
    rewrite (application_success P w r s s1 n "" s2 Hname Hcall).
    unfold response. cbn [outcome].
    now destruct (returnCompleteJoke_fresh "" w Hw) as [-> ->].
  - destruct (decodeJoke_unfit v (no_joke_string_unfit_value v Hhas Hlacks))
      as (j & e & Hd).
    unfold jokeOf, json.Unmarshal in Hread. rewrite Hparse, Hd in Hread.
    subst o. split; [eexists; reflexivity|].
    rewrite (application_joke_error P w r s s1 n "" _ s2 Hname Hcall).
    unfold response. cbn [outcome].
    now destruct (Error_fresh w "failed to get joke" 500 Hw) as [-> ->].
Qed.

Lemma body_without_joke_string_gives_200_or_500_witness :
  (jokeServiceSends worldEmpty "John" "Doe" "{}"
   /\ json.parse "{}" = Some (json.JObject [])
   /\ hasJokeString (json.JObject []) = false
   /\ fresh httptest.NewRecorder = true
   /\ fst (Application.getRandomJoke worldEmpty "John" "Doe"
             (snd (Application.getRandomName worldEmpty start)))
      = Val ("", None)
   /\ response (exec (Application.funcs worldEmpty)
                  (Application.getRoot httptest.NewRecorder GET_root) start)
      = Some (200, ""))
  /\ (jokeServiceSends (world (reply 200 JohnDoe_json) (reply 200 stringValue_json))
        "John" "Doe" stringValue_json
      /\ json.parse stringValue_json
         = Some (json.JObject [("value", json.JString "abc")])
      /\ hasJokeString (json.JObject [("value", json.JString "abc")]) = false
      /\ (exists cause : error,
             fst (Application.getRandomJoke
                    (world (reply 200 JohnDoe_json) (reply 200 stringValue_json))
                    "John" "Doe"
                    (snd (Application.getRandomName
                            (world (reply 200 JohnDoe_json)
                               (reply 200 stringValue_json)) start)))
             = Val ("", Some cause))
      /\ response (exec (Application.funcs
                           (world (reply 200 JohnDoe_json)
                              (reply 200 stringValue_json)))
                     (Application.getRoot httptest.NewRecorder GET_root) start)
         = Some (500, "failed to get joke" ++ newline)).
Proof.
  assert (Hempty : jokeServiceSends worldEmpty "John" "Doe" "{}").
  { eexists _, _, _. repeat split. }
  assert (Hstring : jokeServiceSends
                      (world (reply 200 JohnDoe_json) (reply 200 stringValue_json))
                      "John" "Doe" stringValue_json).
  { eexists _, _, _. repeat split. }
  split.
  - split; [exact Hempty|]. split; [reflexivity|]. split; [reflexivity|].
    split; [reflexivity|].
    exact (body_without_joke_string_gives_200_or_500
             (Application.funcs worldEmpty) worldEmpty httptest.NewRecorder
             GET_root start (snd (Application.getRandomName worldEmpty start))
             JohnDoe "{}" (json.JObject [])
             eq_refl eq_refl Hempty eq_refl eq_refl eq_refl).
  - split; [exact Hstring|]. split; [reflexivity|]. split; [reflexivity|].
    exact (body_without_joke_string_gives_200_or_500
             (Application.funcs
                (world (reply 200 JohnDoe_json) (reply 200 stringValue_json)))
             (world (reply 200 JohnDoe_json) (reply 200 stringValue_json))
             httptest.NewRecorder GET_root start
             (snd (Application.getRandomName
                     (world (reply 200 JohnDoe_json)
                        (reply 200 stringValue_json)) start))
             JohnDoe stringValue_json
             (json.JObject [("value", json.JString "abc")])
             eq_refl eq_refl Hstring eq_refl eq_refl eq_refl).
Defined.
